(** * Knowledge-base reconciliation: chunk identity and the per-file state machine

    A shallow embedding of [models.py] (the [Chunk] record and
    [Chunk.generate_id]), of the [MongoSink] operations the manager calls
    ([mongo_sink.py]) and of [KnowledgeBaseManager] ([kb_manager.py]).

    Conventions of the embedding.
    - A Python [str] is represented by its UTF-8 encoding, a [string] of
      bytes; [s.encode('utf-8')] is then the identity, concatenation is
      [++], and the code-point order Python sorts by is the byte order.
    - Metadata values ([Any] in the source) are the scalars [None], [bool],
      [int] and [str]; floats and nested containers are outside the
      fragment.  A [dict] is an association list in insertion order.
    - [hashlib.md5] is MD5 itself (RFC 1321), written out on 32-bit words.
    - Asynchronous methods are run to completion one after the other, so a
      coroutine is a computation in a state-and-exception monad [M].  The
      state holds the sink's database handle, the file system, the records
      written by the manager's [logger], and the history of file-system
      probes and sink calls made so far.  The sink module's own logger is
      not part of the state.
    - The database behind [MongoSink] keeps a collection as the list of its
      documents in insertion order: an update leaves a document where it
      is, an upsert of an unknown id appends, [find_one] answers with the
      first match, and an equality filter compares values by type and
      value.  Failures of the server itself are not modelled. *)

From Stdlib Require Import ZArith List String Ascii Bool Lia Permutation.
From Stdlib Require Import DecimalString PrimFloat.
Import ListNotations.
Local Open Scope string_scope.
Local Open Scope list_scope.
Local Open Scope Z_scope.

(* ================================================================== *)
(** * hashlib.md5 *)
(* ================================================================== *)

Module MD5.

Definition mask32 : Z := 0xFFFFFFFF.
Definition wrap32 (x : Z) : Z := Z.land x mask32.
Definition add32 (x y : Z) : Z := wrap32 (x + y).
Definition not32 (x : Z) : Z := Z.lxor x mask32.
Definition rotl32 (x n : Z) : Z :=
  Z.lor (wrap32 (Z.shiftl x n)) (Z.shiftr x (32 - n)).

(** Per-round shift amounts. *)
Definition s_table : list Z :=
  [7; 12; 17; 22; 7; 12; 17; 22; 7; 12; 17; 22; 7; 12; 17; 22;
   5; 9; 14; 20; 5; 9; 14; 20; 5; 9; 14; 20; 5; 9; 14; 20;
   4; 11; 16; 23; 4; 11; 16; 23; 4; 11; 16; 23; 4; 11; 16; 23;
   6; 10; 15; 21; 6; 10; 15; 21; 6; 10; 15; 21; 6; 10; 15; 21].

(** [floor (2^32 * abs (sin (i + 1)))] for [i = 0 .. 63]. *)
Definition k_table : list Z :=
  [0xd76aa478; 0xe8c7b756; 0x242070db; 0xc1bdceee;
   0xf57c0faf; 0x4787c62a; 0xa8304613; 0xfd469501;
   0x698098d8; 0x8b44f7af; 0xffff5bb1; 0x895cd7be;
   0x6b901122; 0xfd987193; 0xa679438e; 0x49b40821;
   0xf61e2562; 0xc040b340; 0x265e5a51; 0xe9b6c7aa;
   0xd62f105d; 0x02441453; 0xd8a1e681; 0xe7d3fbc8;
   0x21e1cde6; 0xc33707d6; 0xf4d50d87; 0x455a14ed;
   0xa9e3e905; 0xfcefa3f8; 0x676f02d9; 0x8d2a4c8a;
   0xfffa3942; 0x8771f681; 0x6d9d6122; 0xfde5380c;
   0xa4beea44; 0x4bdecfa9; 0xf6bb4b60; 0xbebfbc70;
   0x289b7ec6; 0xeaa127fa; 0xd4ef3085; 0x04881d05;
   0xd9d4d039; 0xe6db99e5; 0x1fa27cf8; 0xc4ac5665;
   0xf4292244; 0x432aff97; 0xab9423a7; 0xfc93a039;
   0x655b59c3; 0x8f0ccc92; 0xffeff47d; 0x85845dd1;
   0x6fa87e4f; 0xfe2ce6e0; 0xa3014314; 0x4e0811a1;
   0xf7537e82; 0xbd3af235; 0x2ad7d2bb; 0xeb86d391].

Record digest_state := mkState { sa : Z; sb : Z; sc : Z; sd : Z }.

Definition init_state : digest_state :=
  mkState 0x67452301 0xefcdab89 0x98badcfe 0x10325476.

(** Little-endian value of a run of bytes. *)
Definition le_word (bs : list Z) : Z :=
  fold_right (fun b acc => b + 256 * acc) 0 bs.

Fixpoint words_of (n : nat) (bs : list Z) : list Z :=
  match n with
  | O => []
  | S n' => le_word (firstn 4 bs) :: words_of n' (skipn 4 bs)
  end.

Definition round_step (m : list Z) (st : digest_state) (i : Z) : digest_state :=
  let '(mkState a b c d) := st in
  let '(f, g) :=
    if i <? 16 then (Z.lor (Z.land b c) (Z.land (not32 b) d), i)
    else if i <? 32 then
      (Z.lor (Z.land d b) (Z.land (not32 d) c), (5 * i + 1) mod 16)
    else if i <? 48 then (Z.lxor b (Z.lxor c d), (3 * i + 5) mod 16)
    else (Z.lxor c (Z.lor b (not32 d)), (7 * i) mod 16) in
  let f' :=
    add32 (add32 (add32 f a) (nth (Z.to_nat i) k_table 0))
          (nth (Z.to_nat g) m 0) in
  mkState d (add32 b (rotl32 f' (nth (Z.to_nat i) s_table 0))) b c.

Definition process_block (st : digest_state) (block : list Z) : digest_state :=
  let m := words_of 16 block in
  let r := fold_left (round_step m) (map Z.of_nat (seq 0 64)) st in
  mkState (add32 (sa st) (sa r)) (add32 (sb st) (sb r))
          (add32 (sc st) (sc r)) (add32 (sd st) (sd r)).

Definition le_bytes (n : nat) (x : Z) : list Z :=
  map (fun k => Z.land (Z.shiftr x (8 * Z.of_nat k)) 0xFF) (seq 0 n).

(** The message, a [0x80] byte, zeros up to 56 modulo 64, then the bit
    length on 64 bits. *)
Definition pad (msg : list Z) : list Z :=
  let len := Z.of_nat (List.length msg) in
  let zeros := Z.to_nat ((55 - len) mod 64) in
  msg ++ [0x80] ++ repeat 0 zeros ++ le_bytes 8 ((8 * len) mod 2 ^ 64).

Fixpoint blocks (n : nat) (bs : list Z) : list (list Z) :=
  match n with
  | O => []
  | S n' => firstn 64 bs :: blocks n' (skipn 64 bs)
  end.

Definition digest (msg : list Z) : list Z :=
  let p := pad msg in
  let st :=
    fold_left process_block (blocks (Nat.div (List.length p) 64) p) init_state in
  le_bytes 4 (sa st) ++ le_bytes 4 (sb st) ++
  le_bytes 4 (sc st) ++ le_bytes 4 (sd st).

Definition hex_digit (x : Z) : ascii :=
  nth (Z.to_nat x) (list_ascii_of_string "0123456789abcdef") "0"%char.

Definition hex_byte (b : Z) : string :=
  String (hex_digit (Z.shiftr b 4))
         (String (hex_digit (Z.land b 0xF)) EmptyString).

Definition bytes_of_string (s : string) : list Z :=
  map (fun c => Z.of_N (N_of_ascii c)) (list_ascii_of_string s).

(** [hashlib.md5(s).hexdigest()] *)
Definition hexdigest (s : string) : string :=
  fold_right (fun b acc => (hex_byte b ++ acc)%string) EmptyString
             (digest (bytes_of_string s)).

End MD5.

(* ================================================================== *)
(** * Python values and dictionaries *)
(* ================================================================== *)

Inductive value : Type :=
| VNone
| VBool (b : bool)
| VInt (z : Z)
| VStr (s : string).

(** [bool(v)], the test behind [if v] and [not v]. *)
Definition truthy (v : value) : bool :=
  match v with
  | VNone => false
  | VBool b => b
  | VInt z => negb (z =? 0)
  | VStr s => negb (s =? "")%string
  end.

(** [bool] is a subclass of [int]: [True == 1] and [False == 0]. *)
Definition py_eq (a b : value) : bool :=
  match a, b with
  | VNone, VNone => true
  | VStr s, VStr t => (s =? t)%string
  | VBool x, VBool y => Bool.eqb x y
  | VInt x, VInt y => x =? y
  | VBool x, VInt y => (if x then 1 else 0) =? y
  | VInt x, VBool y => x =? (if y then 1 else 0)
  | _, _ => false
  end.

Definition py_ne (a b : value) : bool := negb (py_eq a b).

(** [str(v)], which is how an f-string renders [{v}]. *)
Definition py_str (v : value) : string :=
  match v with
  | VNone => "None"
  | VBool true => "True"
  | VBool false => "False"
  | VInt z => NilZero.string_of_int (Z.to_int z)
  | VStr s => s
  end.

(** Equality of stored values as the database compares them: a boolean is
    not a number there. *)
Definition value_eqb (a b : value) : bool :=
  match a, b with
  | VNone, VNone => true
  | VBool x, VBool y => Bool.eqb x y
  | VInt x, VInt y => x =? y
  | VStr s, VStr t => (s =? t)%string
  | _, _ => false
  end.

Definition dict : Type := list (string * value).

Fixpoint dict_get (d : dict) (k : string) : option value :=
  match d with
  | [] => None
  | (k', v) :: r => if (k' =? k)%string then Some v else dict_get r k
  end.

(** [d.get(k)] *)
Definition py_get (d : dict) (k : string) : value :=
  match dict_get d k with
  | Some v => v
  | None => VNone
  end.

(** [d[k] = v]: an existing key keeps its position, a new one goes last. *)
Fixpoint dict_set (d : dict) (k : string) (v : value) : dict :=
  match d with
  | [] => [(k, v)]
  | (k', v') :: r =>
      if (k' =? k)%string then (k', v) :: r else (k', v') :: dict_set r k v
  end.

(** [bool(d)] for a dictionary. *)
Definition dict_truthy (d : dict) : bool :=
  match d with
  | [] => false
  | _ :: _ => true
  end.

(** What a dictionary is: no key twice. *)
Definition well_formed (d : dict) : Prop := NoDup (map fst d).

(* ================================================================== *)
(** * json.dumps(metadata, sort_keys=True) *)
(* ================================================================== *)

Module Json.

(** Code points of a UTF-8 byte sequence. *)
Fixpoint utf8_decode (bs : list Z) : list Z :=
  match bs with
  | [] => []
  | b0 :: r0 =>
      if b0 <? 0xC0 then b0 :: utf8_decode r0
      else
        match r0 with
        | [] => [b0]
        | b1 :: r1 =>
            if b0 <? 0xE0 then
              Z.lor (Z.shiftl (Z.land b0 0x1F) 6) (Z.land b1 0x3F)
              :: utf8_decode r1
            else
              match r1 with
              | [] => b0 :: utf8_decode r0
              | b2 :: r2 =>
                  if b0 <? 0xF0 then
                    Z.lor (Z.shiftl (Z.land b0 0x0F) 12)
                      (Z.lor (Z.shiftl (Z.land b1 0x3F) 6) (Z.land b2 0x3F))
                    :: utf8_decode r2
                  else
                    match r2 with
                    | [] => b0 :: utf8_decode r0
                    | b3 :: r3 =>
                        Z.lor (Z.shiftl (Z.land b0 0x07) 18)
                          (Z.lor (Z.shiftl (Z.land b1 0x3F) 12)
                             (Z.lor (Z.shiftl (Z.land b2 0x3F) 6)
                                    (Z.land b3 0x3F)))
                        :: utf8_decode r3
                    end
              end
        end
  end.

Definition char_of (c : Z) : string :=
  String (ascii_of_N (Z.to_N c)) EmptyString.

Definition hex4 (x : Z) : string :=
  (MD5.hex_byte (Z.shiftr x 8) ++ MD5.hex_byte (Z.land x 0xFF))%string.

(** The escape of one code point under [ensure_ascii=True]: everything
    outside [' ' .. '~'], the quote and the backslash are escaped. *)
Definition escape (c : Z) : string :=
  if c =? 0x22 then ("\" ++ char_of 0x22)%string
  else if c =? 0x5C then "\\"
  else if c =? 0x0A then "\n"
  else if c =? 0x0D then "\r"
  else if c =? 0x09 then "\t"
  else if c =? 0x08 then "\b"
  else if c =? 0x0C then "\f"
  else if (0x20 <=? c) && (c <=? 0x7E) then char_of c
  else if c <? 0x10000 then ("\u" ++ hex4 c)%string
  else
    let v := c - 0x10000 in
    ("\u" ++ hex4 (Z.lor 0xD800 (Z.land (Z.shiftr v 10) 0x3FF)) ++
     "\u" ++ hex4 (Z.lor 0xDC00 (Z.land v 0x3FF)))%string.

Definition quote : string := char_of 0x22.

Definition dumps_str (s : string) : string :=
  (quote ++ String.concat "" (map escape (utf8_decode (MD5.bytes_of_string s)))
         ++ quote)%string.

Definition dumps_value (v : value) : string :=
  match v with
  | VNone => "null"
  | VBool true => "true"
  | VBool false => "false"
  | VInt z => NilZero.string_of_int (Z.to_int z)
  | VStr s => dumps_str s
  end.

(** Sorting the items by key. *)
Fixpoint insert_item (x : string * value) (l : dict) : dict :=
  match l with
  | [] => [x]
  | y :: r =>
      if (fst x <=? fst y)%string then x :: l else y :: insert_item x r
  end.

Definition sort_items (d : dict) : dict := fold_right insert_item [] d.

Definition dumps_item (kv : string * value) : string :=
  (dumps_str (fst kv) ++ ": " ++ dumps_value (snd kv))%string.

(** [json.dumps(d, sort_keys=True)] *)
Definition dumps_sorted (d : dict) : string :=
  ("{" ++ String.concat ", " (map dumps_item (sort_items d)) ++ "}")%string.

End Json.

(* ================================================================== *)
(** * models.py *)
(* ================================================================== *)

Module Chunk.

Record t : Type := mk {
  id : string;
  text : string;
  embedding : list float;
  metadata : dict
}.

(** [Chunk.generate_id(text, metadata=None, include_metadata=False, salt="")] *)
Definition generate_id (text : string) (metadata : option dict)
    (include_metadata : bool) (salt : value) : string :=
  let content_to_hash := text in
  let content_to_hash :=
    if truthy salt then (content_to_hash ++ "|" ++ py_str salt)%string
    else content_to_hash in
  let content_to_hash :=
    match metadata with
    | Some m =>
        if include_metadata && dict_truthy m then
          let meta_str := Json.dumps_sorted m in
          (content_to_hash ++ "|" ++ meta_str)%string
        else content_to_hash
    | None => content_to_hash
    end in
  MD5.hexdigest content_to_hash.

End Chunk.

(* ================================================================== *)
(** * State, exceptions and the monad of coroutines *)
(* ================================================================== *)

Inductive exn : Type :=
| ValueError (msg : string)
| KeyError (key : string)
| ConnectionError (msg : string)
| OSError (path : string).

Inductive level : Type := INFO | WARNING | ERROR.

(** What a path names: nothing, something [open] refuses, or a file. *)
Inductive file_state : Type :=
| Missing
| Unreadable
| Readable (content : string).

(** The collections of the database, by name. *)
Definition database : Type := list (string * list Chunk.t).

Inductive event : Type :=
| OsPathExists (path : string)
| OpenRead (path : string)
| SinkGetFileInfo (collection : string) (filename : value)
| SinkDeleteChunks (collection : string) (filters : dict)
| SinkIngestChunks (collection : string) (chunks : list Chunk.t)
| SinkUpdateChunkMetadata (collection : string) (chunk_id : string)
    (metadata : dict)
| SinkGetChunk (collection : string) (chunk_id : string).

Record world : Type := mkWorld {
  sink_db : option database;      (* [self.db] of the sink, [None] before [connect] *)
  files : string -> file_state;
  kb_log : list (level * string); (* records of the manager's logger, oldest first *)
  history : list event            (* probes and sink calls, oldest first *)
}.

Inductive outcome (A : Type) : Type :=
| Ok (a : A)
| Raise (e : exn).
Arguments Ok {A} a.
Arguments Raise {A} e.

Definition M (A : Type) : Type := world -> outcome A * world.

Definition ret {A} (a : A) : M A := fun w => (Ok a, w).

Definition raise {A} (e : exn) : M A := fun w => (Raise e, w).

Definition bind {A B} (m : M A) (k : A -> M B) : M B :=
  fun w =>
    match m w with
    | (Ok a, w') => k a w'
    | (Raise e, w') => (Raise e, w')
    end.

Notation "x <- m ;; k" := (bind m (fun x => k))
  (at level 61, m at next level, right associativity).
Notation "m ;;; k" := (bind m (fun _ => k))
  (at level 61, right associativity).

Definition emit (e : event) : M unit :=
  fun w => (Ok tt, mkWorld (sink_db w) (files w) (kb_log w) (history w ++ [e])).

Definition logger (l : level) (msg : string) : M unit :=
  fun w => (Ok tt, mkWorld (sink_db w) (files w) (kb_log w ++ [(l, msg)]) (history w)).

Definition set_db (d : database) : M unit :=
  fun w => (Ok tt, mkWorld (Some d) (files w) (kb_log w) (history w)).

(** A loop that appends one element per iteration. *)
Fixpoint collect {A B} (l : list A) (body : A -> M B) : M (list B) :=
  match l with
  | [] => ret []
  | x :: r => y <- body x ;; ys <- collect r body ;; ret (y :: ys)
  end.

(** [l[i : i + n] for i in range(0, len(l), n)] *)
Definition batches {A} (n : nat) (l : list A) : list (list A) :=
  map (fun k => firstn n (skipn (k * n) l))
      (seq 0 (Nat.div (List.length l + n - 1) n)).

(* ================================================================== *)
(** * mongo_sink.py *)
(* ================================================================== *)

Module MongoSink.

Definition get_collection (d : database) (name : string) : list Chunk.t :=
  match find (fun p => (fst p =? name)%string) d with
  | Some p => snd p
  | None => []
  end.

Fixpoint put_collection (d : database) (name : string) (docs : list Chunk.t)
    : database :=
  match d with
  | [] => [(name, docs)]
  | (n, c) :: r =>
      if (n =? name)%string then (n, docs) :: r
      else (n, c) :: put_collection r name docs
  end.

Definition has_collection (d : database) (name : string) : bool :=
  existsb (fun p => (fst p =? name)%string) d.

Definition strip_prefix (p s : string) : option string :=
  if String.prefix p s
  then Some (String.substring (String.length p)
                              (String.length s - String.length p) s)
  else None.

(** The field of a stored document a dotted path names. *)
Definition field (doc : Chunk.t) (path : string) : option value :=
  if (path =? "id")%string then Some (VStr (Chunk.id doc))
  else if (path =? "text")%string then Some (VStr (Chunk.text doc))
  else
    match strip_prefix "metadata." path with
    | Some k => dict_get (Chunk.metadata doc) k
    | None => None
    end.

(** An equality filter; a [null] condition also matches a missing field. *)
Definition matches (filters : dict) (doc : Chunk.t) : bool :=
  forallb
    (fun c =>
       match field doc (fst c) with
       | Some v => value_eqb v (snd c)
       | None => value_eqb VNone (snd c)
       end)
    filters.

(** [UpdateOne({"id": chunk.id}, {"$set": doc}, upsert=True)] *)
Fixpoint update_one_upsert (docs : list Chunk.t) (chunk : Chunk.t)
    : list Chunk.t :=
  match docs with
  | [] => [chunk]
  | d :: r =>
      if (Chunk.id d =? Chunk.id chunk)%string then chunk :: r
      else d :: update_one_upsert r chunk
  end.

(** [$set: {"metadata": metadata}] on the first document with that id. *)
Fixpoint update_one_metadata (docs : list Chunk.t) (chunk_id : string)
    (metadata : dict) : list Chunk.t :=
  match docs with
  | [] => []
  | d :: r =>
      if (Chunk.id d =? chunk_id)%string
      then Chunk.mk (Chunk.id d) (Chunk.text d) (Chunk.embedding d) metadata :: r
      else d :: update_one_metadata r chunk_id metadata
  end.

Definition bulk_write (docs : list Chunk.t) (operations : list Chunk.t)
    : list Chunk.t :=
  fold_left update_one_upsert operations docs.

(** The guard every method starts with. *)
Definition require_db (msg : string) : M database :=
  fun w =>
    match sink_db w with
    | None => (Raise (ConnectionError msg), w)
    | Some d => (Ok d, w)
    end.

Definition batch_size : nat := 100.

(** One [bulk_write] of a batch on the named collection. *)
Definition write_batch (collection_name : string) (d : database)
    (batch : list Chunk.t) : database :=
  put_collection d collection_name
    (bulk_write (get_collection d collection_name) batch).

Definition ingest_many (d : database) (collection_name : string)
    (chunks : list Chunk.t) : database :=
  fold_left (write_batch collection_name) (batches batch_size chunks) d.

(** [delete_many(filters)]; a collection that does not exist stays so. *)
Definition delete_many (d : database) (collection_name : string)
    (filters : dict) : database :=
  if has_collection d collection_name then
    put_collection d collection_name
      (filter (fun doc => negb (matches filters doc))
              (get_collection d collection_name))
  else d.

Definition update_one (d : database) (collection_name chunk_id : string)
    (metadata : dict) : database :=
  if has_collection d collection_name then
    put_collection d collection_name
      (update_one_metadata (get_collection d collection_name)
                           chunk_id metadata)
  else d.

Definition ingest_chunks (collection_name : string) (chunks : list Chunk.t)
    : M unit :=
  emit (SinkIngestChunks collection_name chunks) ;;;
  d <- require_db "Not connected." ;;
  set_db (ingest_many d collection_name chunks).

Definition delete_chunks (collection_name : string) (filters : dict) : M unit :=
  emit (SinkDeleteChunks collection_name filters) ;;;
  d <- require_db "Not connected." ;;
  set_db (delete_many d collection_name filters).

Definition update_chunk_metadata (collection_name chunk_id : string)
    (metadata : dict) : M unit :=
  emit (SinkUpdateChunkMetadata collection_name chunk_id metadata) ;;;
  d <- require_db "Not connected." ;;
  set_db (update_one d collection_name chunk_id metadata).

Definition get_chunk (collection_name chunk_id : string)
    : M (option Chunk.t) :=
  emit (SinkGetChunk collection_name chunk_id) ;;;
  d <- require_db "Not connected." ;;
  ret (find (fun doc => (Chunk.id doc =? chunk_id)%string)
            (get_collection d collection_name)).

(** The metadata of the first document of that file, in the collection's
    own order. *)
Definition get_file_info (collection_name : string) (filename : value)
    : M (option dict) :=
  emit (SinkGetFileInfo collection_name filename) ;;;
  d <- require_db "Not connected." ;;
  match find (matches [("metadata.filename", filename)])
             (get_collection d collection_name) with
  | Some doc => ret (Some (Chunk.metadata doc))
  | None => ret None
  end.

End MongoSink.

(* ================================================================== *)
(** * kb_manager.py *)
(* ================================================================== *)

(** [os.path.basename]: what follows the last slash. *)
Definition basename (p : string) : string :=
  let fix after (l acc : list ascii) : list ascii :=
    match l with
    | [] => acc
    | c :: r => if (c =? "/")%char then after r [] else after r (acc ++ [c])
    end in
  string_of_list_ascii (after (list_ascii_of_string p) []).

Definition os_path_exists (path : string) : M bool :=
  emit (OsPathExists path) ;;;
  fun w =>
    match files w path with
    | Missing => (Ok false, w)
    | _ => (Ok true, w)
    end.

(** [open(path, "rb")] and the bytes the reads return. *)
Definition open_rb (path : string) : M string :=
  emit (OpenRead path) ;;;
  fun w =>
    match files w path with
    | Readable content => (Ok content, w)
    | _ => (Raise (OSError path), w)
    end.

Module KnowledgeBaseManager.

(** The manager: its collection and its extraction method (which the
    collision test replaces on the instance). *)
Record t : Type := mk {
  collection_name : string;
  _mock_extract_and_chunk : string -> list string
}.

Definition mock_extract_and_chunk (file_path : string) : list string :=
  [ ("Content of " ++ basename file_path ++ " chunk 1")%string;
    ("Content of " ++ basename file_path ++ " chunk 2")%string ].

(** [KnowledgeBaseManager(sink, collection_name)] *)
Definition new (collection_name : string) : t :=
  mk collection_name mock_extract_and_chunk.

(** [[0.1] * 3], the double nearest to one tenth three times. *)
Definition mock_embedding : list float :=
  repeat 0x1.999999999999ap-4%float 3.

Definition _calculate_file_hash (file_path : string) : M string :=
  found <- os_path_exists file_path ;;
  if negb found then ret (MD5.hexdigest file_path)
  else
    content <- open_rb file_path ;;
    (* [hash_md5.update] on each block of 4096 bytes read *)
    ret (MD5.hexdigest
           (string_of_list_ascii
              (List.concat (batches 4096 (list_ascii_of_string content))))).

Definition _metadata_changed (old_meta new_meta : dict) : bool :=
  existsb
    (fun kv =>
       if (fst kv =? "file_hash")%string then false
       else py_ne (py_get old_meta (fst kv)) (snd kv))
    new_meta.

Definition delete_file (self : t) (filename : value) : M unit :=
  logger INFO ("Deleting file '" ++ py_str filename ++ "'...")%string ;;;
  MongoSink.delete_chunks (collection_name self)
    [("metadata.filename", filename)].

(** [metadata["filename"]] *)
Definition subscript (d : dict) (k : string) : M value :=
  match dict_get d k with
  | Some v => ret v
  | None => raise (KeyError k)
  end.

Definition _handle_new_file (self : t) (file_path : string)
    (metadata : dict) (file_hash : string) : M unit :=
  let chunks := _mock_extract_and_chunk self file_path in
  let updated_metadata := dict_set metadata "file_hash" (VStr file_hash) in
  final_chunks <-
    collect chunks
      (fun text =>
         salt <- subscript metadata "filename" ;;
         let chunk_id := Chunk.generate_id text None false salt in
         let embedding := mock_embedding in
         ret (Chunk.mk chunk_id text embedding updated_metadata)) ;;
  MongoSink.ingest_chunks (collection_name self) final_chunks.

Definition _handle_content_update (self : t) (file_path : string)
    (metadata : dict) (file_hash : string) : M unit :=
  filename <- subscript metadata "filename" ;;
  delete_file self filename ;;;
  _handle_new_file self file_path metadata file_hash.

Definition _handle_metadata_update (self : t) (filename : value)
    (new_metadata : dict) (file_hash : string) : M unit :=
  logger INFO "Stable IDs enabled. Re-ingesting with new metadata (Upsert)..." ;;;
  _handle_new_file self ("mock_path/" ++ py_str filename)%string
    new_metadata file_hash.

Definition process_file (self : t) (file_path : string) (metadata : dict)
    : M unit :=
  let filename := py_get metadata "filename" in
  if negb (truthy filename) then
    raise (ValueError "Metadata must contain 'filename'")
  else
    current_hash <- _calculate_file_hash file_path ;;
    existing_info <- MongoSink.get_file_info (collection_name self) filename ;;
    match existing_info with
    | None | Some [] =>
        logger INFO ("File '" ++ py_str filename ++ "' is new. Ingesting...")%string ;;;
        _handle_new_file self file_path metadata current_hash
    | Some existing_info =>
        let stored_hash := py_get existing_info "file_hash" in
        if negb (truthy stored_hash) then
          logger WARNING
            ("File '" ++ py_str filename ++
             "' exists but has NO hash (Legacy). Triggering re-ingestion...")%string ;;;
          _handle_content_update self file_path metadata current_hash
        else if py_ne stored_hash (VStr current_hash) then
          logger INFO
            ("File '" ++ py_str filename ++
             "' content has changed. Re-ingesting...")%string ;;;
          _handle_content_update self file_path metadata current_hash
        else if _metadata_changed existing_info metadata then
          logger INFO
            ("File '" ++ py_str filename ++
             "' metadata changed. Updating...")%string ;;;
          _handle_metadata_update self filename metadata current_hash
        else
          logger INFO
            ("File '" ++ py_str filename ++ "' is up to date. No action.")%string
    end.

End KnowledgeBaseManager.

(* ================================================================== *)
(** * Vocabulary of the statements *)
(* ================================================================== *)

(** The fingerprint [_calculate_file_hash] returns, when it returns one. *)
Definition file_hash_of (fs : string -> file_state) (path : string)
    : option string :=
  match fs path with
  | Missing => Some (MD5.hexdigest path)
  | Unreadable => None
  | Readable content => Some (MD5.hexdigest content)
  end.

(** The file-system probes of one fingerprint computation. *)
Definition hash_probes (fs : string -> file_state) (path : string)
    : list event :=
  match fs path with
  | Missing => [OsPathExists path]
  | _ => [OsPathExists path; OpenRead path]
  end.

Definition filename_filter (filename : value) : dict :=
  [("metadata.filename", filename)].

(** What [get_file_info] answers on database [d]. *)
Definition file_info (d : database) (collection : string) (filename : value)
    : option dict :=
  option_map Chunk.metadata
    (find (MongoSink.matches (filename_filter filename))
          (MongoSink.get_collection d collection)).

(** The records a full ingest of [file_path] builds. *)
Definition chunks_of (self : KnowledgeBaseManager.t) (file_path : string)
    (metadata : dict) (filename : value) (file_hash : string)
    : list Chunk.t :=
  map (fun text =>
         Chunk.mk (Chunk.generate_id text None false filename) text
                  KnowledgeBaseManager.mock_embedding
                  (dict_set metadata "file_hash" (VStr file_hash)))
      (KnowledgeBaseManager._mock_extract_and_chunk self file_path).

(** The effect of a recorded sink call on the database. *)
Definition apply_call (d : database) (e : event) : database :=
  match e with
  | SinkIngestChunks c chunks => MongoSink.ingest_many d c chunks
  | SinkDeleteChunks c filters => MongoSink.delete_many d c filters
  | SinkUpdateChunkMetadata c i m => MongoSink.update_one d c i m
  | _ => d
  end.

(** The five situations of a file, in the order the specification lists
    them. *)
Inductive scenario : Type :=
| NEW
| LEGACY
| CONTENT_CHANGED
| METADATA_CHANGED
| UNCHANGED.

(** The decision table as the specification words it: absence of stored
    information, then absence of the [file_hash] key, then the comparison
    of hashes, then the comparison of the supplied fields. *)
Definition classify (existing : option dict) (current_hash : string)
    (metadata : dict) : scenario :=
  match existing with
  | None => NEW
  | Some old =>
      match dict_get old "file_hash" with
      | None => LEGACY
      | Some stored_hash =>
          if py_ne stored_hash (VStr current_hash) then CONTENT_CHANGED
          else if existsb
                    (fun kv =>
                       negb (fst kv =? "file_hash")%string
                       && py_ne (py_get old (fst kv)) (snd kv))
                    metadata
               then METADATA_CHANGED
               else UNCHANGED
      end
  end.

(** The sink calls the manager answers each situation with: a full ingest
    of [file_path], a delete followed by a full ingest, a full ingest run
    on ["mock_path/" + filename] for the metadata-only update, nothing. *)
Definition action (self : KnowledgeBaseManager.t) (file_path : string)
    (metadata : dict) (current_hash : string) (s : scenario) : list event :=
  let c := KnowledgeBaseManager.collection_name self in
  let filename := py_get metadata "filename" in
  match s with
  | NEW =>
      [SinkIngestChunks c
         (chunks_of self file_path metadata filename current_hash)]
  | LEGACY | CONTENT_CHANGED =>
      [SinkDeleteChunks c (filename_filter filename);
       SinkIngestChunks c
         (chunks_of self file_path metadata filename current_hash)]
  | METADATA_CHANGED =>
      [SinkIngestChunks c
         (chunks_of self ("mock_path/" ++ py_str filename)%string metadata
                    filename current_hash)]
  | UNCHANGED => []
  end.

(** Modelled on the specification's wording of the identity function:
    [text], then ["|" + salt] when the salt is not empty, then
    ["|" + canonical_json(metadata)] when [include_metadata] holds and a
    metadata mapping is provided. *)
Definition spec_generate_id (text : string) (metadata : option dict)
    (include_metadata : bool) (salt : string) : string :=
  MD5.hexdigest
    (text
     ++ (if (salt =? "")%string then "" else "|" ++ salt)
     ++ (match metadata with
         | Some m => if include_metadata then "|" ++ Json.dumps_sorted m else ""
         | None => ""
         end))%string.

(** Items in the order of their keys. *)
Definition key_le (x y : string * value) : Prop :=
  (fst x <=? fst y)%string = true.

Fixpoint sorted (l : dict) : Prop :=
  match l with
  | [] => True
  | x :: r => Forall (key_le x) r /\ sorted r
  end.

(** A call refused for want of a connection: the error, and a state with
    the same log and still no database. *)
Definition refused {A} (w : world) (r : outcome A * world) : Prop :=
  fst r = Raise (ConnectionError "Not connected.")
  /\ sink_db (snd r) = None
  /\ kb_log (snd r) = kb_log w.



(** The ids a full ingest of [file_path] under [filename] writes. *)
Definition ids_for (self : KnowledgeBaseManager.t) (file_path : string)
    (filename : value) : list string :=
  map (fun text => Chunk.generate_id text None false filename)
      (KnowledgeBaseManager._mock_extract_and_chunk self file_path).

(** A name without a slash in it. *)
Definition no_slash (name : string) : Prop :=
  ~ In "/"%char (list_ascii_of_string name).

(** The record [delete_file] logs. *)
Definition deleting_record (fn : value) : level * string :=
  (INFO, ("Deleting file '" ++ py_str fn ++ "'...")%string).

(** The ids stored in a collection. *)
Definition ids_of (docs : list Chunk.t) : list string := map Chunk.id docs.

(** A world with a connected, empty database and no file on disk. *)
Definition fresh_world : world :=
  mkWorld (Some []) (fun _ => Missing) [] [].

Definition run {A} (m : M A) (w : world) : world := snd (m w).

(** The documents stored in a collection of a world. *)
Definition stored (w : world) (collection : string) : list Chunk.t :=
  match sink_db w with
  | Some d => MongoSink.get_collection d collection
  | None => []
  end.

Definition database_of (w : world) : database :=
  match sink_db w with
  | Some d => d
  | None => []
  end.

(* ================================================================== *)
(** * The scenarios of test_kb_manager.py and test_collision.py *)
(* ================================================================== *)

Module Scenario.

Definition kb : KnowledgeBaseManager.t := KnowledgeBaseManager.new "kb_test".

Definition meta_draft : dict :=
  [("filename", VStr "doc1.pdf"); ("label", VStr "draft");
   ("provider", VStr "A")].

Definition meta_final : dict :=
  [("filename", VStr "doc1.pdf"); ("label", VStr "final");
   ("provider", VStr "A")].

(** The caller stops sending [provider]. *)
Definition meta_no_provider : dict :=
  [("filename", VStr "doc1.pdf"); ("label", VStr "draft")].

(** Scenario 1: a new file; nothing is on disk, the path itself is hashed. *)
Definition world_ingested : world :=
  run (KnowledgeBaseManager.process_file kb "path/to/doc1.pdf" meta_draft)
      fresh_world.

Definition db_ingested : database :=
  Eval vm_compute in database_of world_ingested.

Definition hash_doc1 : string :=
  Eval vm_compute in MD5.hexdigest "path/to/doc1.pdf".

Definition hash_doc1_v2 : string :=
  Eval vm_compute in MD5.hexdigest "path/to/doc1_v2.pdf".

Definition stored_draft : dict :=
  [("filename", VStr "doc1.pdf"); ("label", VStr "draft");
   ("provider", VStr "A"); ("file_hash", VStr hash_doc1)].




(** A file ingested from a path whose base name is not its [filename], as
    scenario 3 does, and then given a new label. *)
Definition world_v2_draft : world :=
  run (KnowledgeBaseManager.process_file kb "path/to/doc1_v2.pdf" meta_draft)
      fresh_world.

Definition world_v2_final : world :=
  run (KnowledgeBaseManager.process_file kb "path/to/doc1_v2.pdf" meta_final)
      world_v2_draft.




(** A disk where [notes.txt] holds the bytes of its own name, one where it
    cannot be opened, and the empty one. *)
Definition disk_with (path : string) (st : file_state) (p : string)
    : file_state :=
  if (p =? path)%string then st else Missing.

Definition world_with_file : world :=
  mkWorld (Some []) (disk_with "notes.txt" (Readable "notes.txt")) [] [].

Definition world_locked_file : world :=
  mkWorld (Some []) (disk_with "notes.txt" Unreadable) [] [].

Definition world_disconnected : world :=
  mkWorld None (fun _ => Missing) [] [].

End Scenario.

(* ================================================================== *)
(** * Facts about strings, dictionaries and the key sort *)
(* ================================================================== *)

#[local] Arguments MD5.hexdigest : simpl never.
#[local] Arguments Json.dumps_sorted : simpl never.
#[local] Arguments Chunk.generate_id : simpl never.

Lemma string_leb_trans (a b c : string) :
  (a <=? b)%string = true -> (b <=? c)%string = true ->
  (a <=? c)%string = true.
Proof.
  unfold String.leb. revert b c.
  induction a as [|x a IH]; intros [|y b] [|z c]; simpl;
    try reflexivity; try discriminate.
  unfold Ascii.compare.
  destruct (N.compare_spec (N_of_ascii x) (N_of_ascii y));
    destruct (N.compare_spec (N_of_ascii y) (N_of_ascii z));
    destruct (N.compare_spec (N_of_ascii x) (N_of_ascii z));
    try lia; try discriminate; try reflexivity.
  apply IH.
Qed.

Lemma string_append_nil_r (s : string) : (s ++ "")%string = s.
Proof. induction s as [|c s IH]; simpl; [reflexivity | now rewrite IH]. Qed.

Lemma string_append_assoc (a b c : string) :
  ((a ++ b) ++ c)%string = (a ++ (b ++ c))%string.
Proof. induction a as [|x a IH]; simpl; [reflexivity | now rewrite IH]. Qed.

Lemma string_append_length (a b : string) :
  String.length (a ++ b) = (String.length a + String.length b)%nat.
Proof. induction a as [|x a IH]; simpl; [reflexivity | now rewrite IH]. Qed.


Lemma truthy_VStr (s : string) : truthy (VStr s) = true <-> s <> "".
Proof.
  simpl. destruct (String.eqb_spec s ""); simpl; split; intros;
    congruence.
Qed.


Lemma py_ne_VStr_r (v : value) (s : string) :
  py_ne v (VStr s) = false <-> v = VStr s.
Proof.
  unfold py_ne. destruct v as [|b|z|t]; simpl; split; intros H;
    try discriminate.
  - destruct (String.eqb_spec t s); [congruence | discriminate].
  - injection H as ->. now rewrite String.eqb_refl.
Qed.

Lemma py_eq_refl (v : value) : py_eq v v = true.
Proof.
  destruct v as [|b|z|s]; simpl;
    [reflexivity | apply Bool.eqb_reflx | apply Z.eqb_refl
    | apply String.eqb_refl].
Qed.


Lemma dict_get_set_other (d : dict) (k k0 : string) (v : value) :
  k <> k0 -> dict_get (dict_set d k v) k0 = dict_get d k0.
Proof.
  intros Hne. induction d as [|[k' v'] d IH]; simpl.
  - destruct (String.eqb_spec k k0); [contradiction | reflexivity].
  - destruct (String.eqb_spec k' k) as [->|Hk]; simpl.
    + destruct (String.eqb_spec k k0); [contradiction | reflexivity].
    + destruct (String.eqb_spec k' k0); [reflexivity | exact IH].
Qed.

Lemma dict_get_In (d : dict) (k : string) (v : value) :
  dict_get d k = Some v -> In (k, v) d.
Proof.
  induction d as [|[k' v'] d IH]; simpl; [discriminate|].
  destruct (String.eqb_spec k' k) as [->|Hne]; intros H.
  - injection H as ->. now left.
  - right. exact (IH H).
Qed.

Lemma In_dict_get (d : dict) (k : string) (v : value) :
  well_formed d -> In (k, v) d -> dict_get d k = Some v.
Proof.
  unfold well_formed.
  induction d as [|[k' v'] d IH]; simpl; intros Hnd Hin; [contradiction|].
  inversion Hnd as [|? ? Hnotin Hnd']; subst.
  destruct Hin as [Heq | Hin].
  - injection Heq as -> ->. now rewrite String.eqb_refl.
  - destruct (String.eqb_spec k' k) as [->|Hne]; [|exact (IH Hnd' Hin)].
    exfalso. apply Hnotin. exact (in_map fst _ _ Hin).
Qed.

Module SortFacts.

Lemma insert_perm (x : string * value) (l : dict) :
  Permutation (Json.insert_item x l) (x :: l).
Proof.
  induction l as [|y r IH]; simpl; [apply Permutation_refl|].
  destruct (fst x <=? fst y)%string; [apply Permutation_refl|].
  eapply perm_trans; [apply perm_skip, IH | apply perm_swap].
Qed.

Lemma insert_sorted (x : string * value) (l : dict) :
  sorted l -> sorted (Json.insert_item x l).
Proof.
  induction l as [|y r IH]; simpl; intros Hs; [now split|].
  destruct Hs as [Hy Hr].
  destruct (fst x <=? fst y)%string eqn:E; simpl.
  - repeat split; try assumption.
    constructor; [exact E|].
    eapply Forall_impl; [|exact Hy].
    intros z Hz. unfold key_le in *. eapply string_leb_trans; eassumption.
  - split; [|exact (IH Hr)].
    assert (Hyx : key_le y x).
    { unfold key_le. destruct (String.leb_total (fst x) (fst y)); congruence. }
    eapply Permutation_Forall;
      [apply Permutation_sym, insert_perm|].
    constructor; assumption.
Qed.

Lemma sort_perm (d : dict) : Permutation (Json.sort_items d) d.
Proof.
  induction d as [|x d IH]; simpl; [constructor|].
  eapply perm_trans; [apply insert_perm | now apply perm_skip].
Qed.

Lemma sort_sorted (d : dict) : sorted (Json.sort_items d).
Proof.
  induction d as [|x d IH]; simpl; [exact I | now apply insert_sorted].
Qed.

Lemma same_key_same_item (l : dict) (x y : string * value) :
  well_formed l -> In x l -> In y l -> fst x = fst y -> x = y.
Proof.
  intros Hwf Hx Hy Hk. destruct x as [k v], y as [k' v']; simpl in Hk; subst.
  pose proof (In_dict_get _ _ _ Hwf Hx) as H1.
  pose proof (In_dict_get _ _ _ Hwf Hy) as H2.
  congruence.
Qed.

(** A dictionary has one sorted arrangement. *)
Lemma sorted_unique (l1 : dict) :
  forall l2, well_formed l1 -> sorted l1 -> sorted l2 ->
             Permutation l1 l2 -> l1 = l2.
Proof.
  induction l1 as [|x r1 IH]; intros l2 Hwf Hs1 Hs2 Hp.
  - now apply Permutation_nil in Hp.
  - destruct l2 as [|y r2];
      [apply Permutation_sym, Permutation_nil in Hp; discriminate|].
    assert (Hxy : x = y).
    { assert (Hx : In x (y :: r2))
        by (eapply Permutation_in; [exact Hp | now left]).
      assert (Hy : In y (x :: r1))
        by (eapply Permutation_in; [apply Permutation_sym, Hp | now left]).
      destruct Hx as [Hx | Hx]; [now symmetry|].
      destruct Hy as [Hy | Hy]; [assumption|].
      destruct Hs1 as [Hf1 _], Hs2 as [Hf2 _].
      rewrite Forall_forall in Hf1, Hf2.
      apply (same_key_same_item (x :: r1)); try assumption;
        [now left | now right|].
      apply String.leb_antisym; [exact (Hf1 _ Hy) | exact (Hf2 _ Hx)]. }
    subst y. f_equal.
    apply IH.
    + unfold well_formed in *. simpl in Hwf. now inversion Hwf.
    + exact (proj2 Hs1).
    + exact (proj2 Hs2).
    + exact (Permutation_cons_inv Hp).
Qed.

Lemma sort_items_perm_eq (m1 m2 : dict) :
  well_formed m1 -> Permutation m1 m2 ->
  Json.sort_items m1 = Json.sort_items m2.
Proof.
  intros Hwf Hp. apply sorted_unique.
  - unfold well_formed.
    eapply Permutation_NoDup; [|exact Hwf].
    apply Permutation_map, Permutation_sym, sort_perm.
  - apply sort_sorted.
  - apply sort_sorted.
  - eapply perm_trans; [apply sort_perm|].
    eapply perm_trans; [exact Hp | apply Permutation_sym, sort_perm].
Qed.

End SortFacts.

Lemma dumps_sorted_perm (m1 m2 : dict) :
  well_formed m1 -> Permutation m1 m2 ->
  Json.dumps_sorted m1 = Json.dumps_sorted m2.
Proof.
  intros Hwf Hp. unfold Json.dumps_sorted.
  now rewrite (SortFacts.sort_items_perm_eq m1 m2 Hwf Hp).
Qed.

Lemma dict_truthy_perm (m1 m2 : dict) :
  Permutation m1 m2 -> dict_truthy m1 = dict_truthy m2.
Proof.
  intros Hp. destruct m1, m2; try reflexivity.
  - apply Permutation_nil in Hp. discriminate.
  - apply Permutation_sym, Permutation_nil in Hp. discriminate.
Qed.

(* ================================================================== *)
(** * The identity function *)
(* ================================================================== *)

Lemma hexdigest_length (s : string) :
  String.length (MD5.hexdigest s) = 32%nat.
Proof.
  unfold MD5.hexdigest, MD5.digest.
  generalize (fold_left MD5.process_block
                (MD5.blocks
                   (Nat.div (List.length (MD5.pad (MD5.bytes_of_string s))) 64)
                   (MD5.pad (MD5.bytes_of_string s)))
                MD5.init_state).
  intros st. reflexivity.
Qed.

Lemma hexdigest_not_empty (s : string) : MD5.hexdigest s <> "".
Proof.
  intros H. pose proof (hexdigest_length s) as L. rewrite H in L.
  discriminate L.
Qed.

(** Known answers of RFC 1321. *)
Example md5_empty : MD5.hexdigest "" = "d41d8cd98f00b204e9800998ecf8427e".
Proof. vm_compute. reflexivity. Qed.

Example md5_abc : MD5.hexdigest "abc" = "900150983cd24fb0d6963f7d28e17f72".
Proof. vm_compute. reflexivity. Qed.

Example md5_two_blocks :
  MD5.hexdigest
    "12345678901234567890123456789012345678901234567890123456789012345678901234567890"
  = "57edf4a22be3c955ac49da2e2107b67a".
Proof. vm_compute. reflexivity. Qed.

Lemma generate_id_unfold (text : string) (metadata : option dict)
    (include_metadata : bool) (salt : value) :
  Chunk.generate_id text metadata include_metadata salt =
  MD5.hexdigest
    ((text ++ (if truthy salt then "|" ++ py_str salt else ""))
     ++ (match metadata with
         | Some m =>
             if include_metadata && dict_truthy m
             then "|" ++ Json.dumps_sorted m else ""
         | None => ""
         end))%string.
Proof.
  unfold Chunk.generate_id.
  destruct (truthy salt); destruct metadata as [m|];
    try destruct (include_metadata && dict_truthy m);
    rewrite ?string_append_nil_r, ?string_append_assoc; reflexivity.
Qed.

(** C3, as the code has it: the id depends on the four arguments alone
    and is the 32-character hex MD5 of [text],
    then ["|" + salt] when the salt is not empty, then ["|"] and the
    key-sorted JSON of the metadata when [include_metadata] holds and the
    metadata mapping is given and is not empty (an empty mapping counts as
    none given); with [include_metadata] set, two mappings with the same
    items in different insertion orders give the same id. *)
Theorem generate_id_canonical (text salt : string) (m1 m2 : dict)
    (include_metadata : bool)
    (Hne : m1 <> []) (Hwf : well_formed m1) (Hperm : Permutation m1 m2) :
  Chunk.generate_id text (Some m1) include_metadata (VStr salt)
    = spec_generate_id text (Some m1) include_metadata salt
  /\ Chunk.generate_id text None include_metadata (VStr salt)
    = spec_generate_id text None include_metadata salt
  /\ Chunk.generate_id text (Some []) include_metadata (VStr salt)
    = spec_generate_id text None include_metadata salt
  /\ String.length (Chunk.generate_id text (Some m1) include_metadata (VStr salt))
    = 32%nat
  /\ Chunk.generate_id text (Some m1) true (VStr salt)
    = Chunk.generate_id text (Some m2) true (VStr salt).
Proof.
  assert (Hsalt : (if truthy (VStr salt) then "|" ++ salt else "")%string
                  = (if (salt =? "")%string then "" else "|" ++ salt)%string).
  { simpl. now destruct (salt =? "")%string. }
  split; [|split; [|split; [|split]]].
  - rewrite generate_id_unfold. unfold spec_generate_id. simpl py_str.
    rewrite Hsalt, string_append_assoc.
    destruct m1 as [|kv r]; [contradiction|]. simpl dict_truthy.
    now rewrite andb_true_r.
  - rewrite generate_id_unfold. unfold spec_generate_id. simpl py_str.
    now rewrite Hsalt, string_append_assoc.
  - rewrite generate_id_unfold. unfold spec_generate_id. simpl py_str.
    simpl dict_truthy. now rewrite andb_false_r, Hsalt, string_append_assoc.
  - unfold Chunk.generate_id. apply hexdigest_length.
  - rewrite !generate_id_unfold.
    rewrite (dict_truthy_perm m1 m2 Hperm).
    now rewrite (dumps_sorted_perm m1 m2 Hwf Hperm).
Qed.

Lemma generate_id_canonical_witness :
  let m1 := [("a", VInt 1); ("b", VStr "x")] in
  let m2 := [("b", VStr "x"); ("a", VInt 1)] in
  Chunk.generate_id "t" (Some m1) true (VStr "f.pdf")
    = spec_generate_id "t" (Some m1) true "f.pdf"
  /\ Chunk.generate_id "t" None true (VStr "f.pdf")
    = spec_generate_id "t" None true "f.pdf"
  /\ Chunk.generate_id "t" (Some []) true (VStr "f.pdf")
    = spec_generate_id "t" None true "f.pdf"
  /\ String.length (Chunk.generate_id "t" (Some m1) true (VStr "f.pdf"))
    = 32%nat
  /\ Chunk.generate_id "t" (Some m1) true (VStr "f.pdf")
    = Chunk.generate_id "t" (Some m2) true (VStr "f.pdf").
Proof.
  intros m1 m2.
  apply (generate_id_canonical "t" "f.pdf" m1 m2 true).
  - discriminate.
  - unfold well_formed, m1. simpl.
    repeat constructor; simpl; intuition discriminate.
  - apply perm_swap.
Defined.

(** C3, the point where the wording of the specification and the code part:
    an empty metadata mapping is provided, yet nothing is appended for it. *)
Lemma generate_id_empty_metadata_counterexample :
  Chunk.generate_id "t" (Some []) true (VStr "")
  <> spec_generate_id "t" (Some []) true "".
Proof. vm_compute. intros H. discriminate H. Qed.

(** C9.  The separator is not escaped: a salted id is the unsalted id of
    the text that already ends in ["|" + salt], although the two
    (text, salt) pairs differ. *)
Theorem generate_id_salt_not_injective (text salt : string)
    (metadata : option dict) (include_metadata : bool)
    (Hsalt : salt <> "") :
  Chunk.generate_id text metadata include_metadata (VStr salt)
    = Chunk.generate_id (text ++ "|" ++ salt) metadata include_metadata
        (VStr "")
  /\ (text, salt) <> ((text ++ "|" ++ salt)%string, "").
Proof.
  split.
  - rewrite !generate_id_unfold.
    apply truthy_VStr in Hsalt. rewrite Hsalt. simpl truthy. simpl py_str.
    change (if false then ("|" ++ "")%string else "") with "".
    now rewrite (string_append_nil_r (text ++ "|" ++ salt)).
  - intros H. injection H as _ H. contradiction.
Qed.

Lemma generate_id_salt_not_injective_witness :
  Chunk.generate_id "Intro" None false (VStr "doc1.pdf")
    = Chunk.generate_id "Intro|doc1.pdf" None false (VStr "")
  /\ ("Intro", "doc1.pdf") <> ("Intro|doc1.pdf", "").
Proof.
  apply (generate_id_salt_not_injective "Intro" "doc1.pdf" None false).
  discriminate.
Defined.

(* ================================================================== *)
(** * Facts about batches and the collection operations *)
(* ================================================================== *)

Lemma firstn_plus {A} (a b : nat) (l : list A) :
  firstn (a + b) l = firstn a l ++ firstn b (skipn a l).
Proof.
  revert l. induction a as [|a IH]; intros l; [reflexivity|].
  destruct l as [|x l]; simpl.
  - now rewrite firstn_nil.
  - now rewrite IH.
Qed.

Lemma concat_slices {A} (n : nat) (l : list A) (m : nat) :
  List.concat (map (fun k => firstn n (skipn (k * n) l)) (seq 0 m))
  = firstn (m * n) l.
Proof.
  induction m as [|m IH]; [reflexivity|].
  rewrite seq_S, map_app, concat_app, IH. simpl.
  rewrite app_nil_r, (Nat.add_comm n (m * n)).
  symmetry. apply firstn_plus.
Qed.

Lemma concat_batches {A} (n : nat) (l : list A) :
  (0 < n)%nat -> List.concat (batches n l) = l.
Proof.
  intros Hn. unfold batches. rewrite concat_slices.
  apply firstn_all2.
  pose proof (Nat.div_mod_eq (List.length l + n - 1) n) as E.
  pose proof (Nat.mod_upper_bound (List.length l + n - 1) n) as U.
  nia.
Qed.

Module SinkFacts.
Import MongoSink.

Lemma get_put_same (d : database) (name : string) (docs : list Chunk.t) :
  get_collection (put_collection d name docs) name = docs.
Proof.
  unfold get_collection.
  induction d as [|[n c] d IH]; simpl.
  - now rewrite String.eqb_refl.
  - destruct (String.eqb_spec n name) as [->|Hne]; simpl.
    + now rewrite String.eqb_refl.
    + destruct (String.eqb_spec n name); [contradiction | exact IH].
Qed.

Lemma get_absent (d : database) (name : string) :
  has_collection d name = false -> get_collection d name = [].
Proof.
  unfold get_collection, has_collection.
  induction d as [|[n c] d IH]; simpl; [reflexivity|].
  destruct (n =? name)%string; simpl; [discriminate | exact IH].
Qed.

Lemma get_write_batches (name : string) (bs : list (list Chunk.t)) :
  forall d,
    get_collection (fold_left (write_batch name) bs d) name
    = fold_left update_one_upsert (List.concat bs) (get_collection d name).
Proof.
  induction bs as [|b bs IH]; intros d; simpl; [reflexivity|].
  rewrite IH. unfold write_batch. rewrite get_put_same.
  unfold bulk_write. now rewrite fold_left_app.
Qed.

(** Batching is invisible: the collection ends as if the upserts had
    been issued one by one. *)
Lemma get_ingest_many (d : database) (name : string) (chunks : list Chunk.t) :
  get_collection (ingest_many d name chunks) name
  = fold_left update_one_upsert chunks (get_collection d name).
Proof.
  unfold ingest_many. rewrite get_write_batches.
  rewrite concat_batches; [reflexivity | unfold batch_size; lia].
Qed.





(** The ids present after an upsert: those before, and the new one. *)
Lemma upsert_ids (docs : list Chunk.t) (c : Chunk.t) (i : string) :
  In i (ids_of (update_one_upsert docs c))
  <-> In i (ids_of docs) \/ i = Chunk.id c.
Proof.
  unfold ids_of. induction docs as [|x r IH]; simpl.
  - intuition.
  - destruct (String.eqb_spec (Chunk.id x) (Chunk.id c)) as [E|E]; simpl.
    + rewrite E. intuition.
    + rewrite IH. intuition.
Qed.

Lemma upserts_ids (chunks : list Chunk.t) (i : string) :
  forall docs,
    In i (ids_of (fold_left update_one_upsert chunks docs))
    <-> In i (ids_of docs) \/ In i (ids_of chunks).
Proof.
  induction chunks as [|c cs IH]; intros docs; simpl.
  - intuition.
  - rewrite IH, upsert_ids. intuition.
Qed.


Lemma value_eqb_eq (a b : value) : value_eqb a b = true -> a = b.
Proof.
  destruct a as [|x|x|x], b as [|y|y|y]; simpl; intros H;
    try discriminate; try reflexivity.
  - now apply Bool.eqb_prop in H; subst.
  - now apply Z.eqb_eq in H; subst.
  - now apply String.eqb_eq in H; subst.
Qed.

Lemma matches_filename (doc : Chunk.t) (filename : value) :
  matches (filename_filter filename) doc
  = value_eqb (py_get (Chunk.metadata doc) "filename") filename.
Proof.
  unfold matches, filename_filter, field, py_get. simpl.
  destruct (dict_get (Chunk.metadata doc) "filename");
    now rewrite andb_true_r.
Qed.

End SinkFacts.

(* ================================================================== *)
(** * Running the manager's methods *)
(* ================================================================== *)

#[local] Arguments batches : simpl never.
#[local] Arguments String.append : simpl never.

Module RunFacts.
Import MongoSink KnowledgeBaseManager.

Lemma bind_ok {A B} (m : M A) (k : A -> M B) (w w' : world) (a : A) :
  m w = (Ok a, w') -> bind m k w = k a w'.
Proof. intros H. unfold bind. now rewrite H. Qed.

Lemma bind_raise {A B} (m : M A) (k : A -> M B) (w w' : world) (e : exn) :
  m w = (Raise e, w') -> bind m k w = (Raise e, w').
Proof. intros H. unfold bind. now rewrite H. Qed.

Lemma truthy_get (metadata : dict) :
  truthy (py_get metadata "filename") = true ->
  dict_get metadata "filename" = Some (py_get metadata "filename").
Proof.
  unfold py_get. destruct (dict_get metadata "filename");
    [reflexivity | discriminate].
Qed.

Lemma calc_hash_run (path : string) (w : world) (h : string) :
  file_hash_of (files w) path = Some h ->
  _calculate_file_hash path w
  = (Ok h, mkWorld (sink_db w) (files w) (kb_log w)
                   (history w ++ hash_probes (files w) path)).
Proof.
  unfold file_hash_of, hash_probes, _calculate_file_hash, os_path_exists,
    open_rb, bind, emit, ret.
  cbn [files sink_db kb_log history].
  destruct (files w path) eqn:E; intros H; try discriminate;
    injection H as <-; cbn [negb files sink_db kb_log history].
  - reflexivity.
  - rewrite E, concat_batches by lia.
    now rewrite string_of_list_ascii_of_string, <- app_assoc.
Qed.

Lemma calc_hash_unreadable (path : string) (w : world) :
  files w path = Unreadable ->
  _calculate_file_hash path w
  = (Raise (OSError path),
     mkWorld (sink_db w) (files w) (kb_log w)
             (history w ++ [OsPathExists path; OpenRead path])).
Proof.
  intros E.
  unfold _calculate_file_hash, os_path_exists, open_rb, bind, emit, ret.
  cbn [files sink_db kb_log history]. rewrite E.
  cbn [negb files sink_db kb_log history]. rewrite E.
  now rewrite <- app_assoc.
Qed.

Lemma get_file_info_run (c : string) (fn : value) (w : world)
    (d : database) :
  sink_db w = Some d ->
  get_file_info c fn w
  = (Ok (file_info d c fn),
     mkWorld (Some d) (files w) (kb_log w)
             (history w ++ [SinkGetFileInfo c fn])).
Proof.
  intros H. unfold get_file_info, bind, emit, require_db, ret.
  cbn [files sink_db kb_log history]. rewrite H.
  unfold file_info, filename_filter.
  now destruct (find _ _).
Qed.

Lemma collect_chunks (self : t) (path : string) (metadata : dict)
    (fn : value) (h : string) (w : world) :
  dict_get metadata "filename" = Some fn ->
  collect (_mock_extract_and_chunk self path)
    (fun text =>
       salt <- subscript metadata "filename" ;;
       ret (Chunk.mk (Chunk.generate_id text None false salt) text
                     mock_embedding
                     (dict_set metadata "file_hash" (VStr h)))) w
  = (Ok (chunks_of self path metadata fn h), w).
Proof.
  intros H. unfold chunks_of.
  induction (_mock_extract_and_chunk self path) as [|x l IH];
    [reflexivity|].
  cbn [collect map]. unfold bind, subscript in *. rewrite H in *.
  unfold ret in *. cbv beta iota in *. now rewrite IH.
Qed.

Lemma handle_new_file_run (self : t) (path : string) (metadata : dict)
    (fn : value) (h : string) (w : world) (d : database) :
  sink_db w = Some d ->
  dict_get metadata "filename" = Some fn ->
  _handle_new_file self path metadata h w
  = (Ok tt,
     mkWorld
       (Some (ingest_many d (collection_name self)
                (chunks_of self path metadata fn h)))
       (files w) (kb_log w)
       (history w
        ++ [SinkIngestChunks (collection_name self)
              (chunks_of self path metadata fn h)])).
Proof.
  intros Hd Hfn. unfold _handle_new_file.
  rewrite (bind_ok _ _ _ _ _ (collect_chunks self path metadata fn h w Hfn)).
  unfold ingest_chunks, bind, emit, require_db, set_db.
  cbn [files sink_db kb_log history]. now rewrite Hd.
Qed.

Lemma delete_file_run (self : t) (fn : value) (w : world) (d : database) :
  sink_db w = Some d ->
  delete_file self fn w
  = (Ok tt,
     mkWorld
       (Some (delete_many d (collection_name self) (filename_filter fn)))
       (files w) (kb_log w ++ [deleting_record fn])
       (history w
        ++ [SinkDeleteChunks (collection_name self) (filename_filter fn)])).
Proof.
  intros Hd.
  unfold delete_file, delete_chunks, bind, logger, emit, require_db, set_db.
  cbn [files sink_db kb_log history]. now rewrite Hd.
Qed.

Lemma handle_content_update_run (self : t) (path : string)
    (metadata : dict) (fn : value) (h : string) (w : world) (d : database) :
  sink_db w = Some d ->
  dict_get metadata "filename" = Some fn ->
  _handle_content_update self path metadata h w
  = (Ok tt,
     mkWorld
       (Some (ingest_many
                (delete_many d (collection_name self) (filename_filter fn))
                (collection_name self)
                (chunks_of self path metadata fn h)))
       (files w) (kb_log w ++ [deleting_record fn])
       (history w
        ++ [SinkDeleteChunks (collection_name self) (filename_filter fn);
            SinkIngestChunks (collection_name self)
              (chunks_of self path metadata fn h)])).
Proof.
  intros Hd Hfn. unfold _handle_content_update, subscript. rewrite Hfn.
  unfold bind at 1. unfold ret at 1.
  rewrite (bind_ok _ _ _ _ _ (delete_file_run self fn w d Hd)).
  erewrite handle_new_file_run; [|reflexivity | exact Hfn].
  cbn [files sink_db kb_log history]. now rewrite <- app_assoc.
Qed.

End RunFacts.

(* ================================================================== *)
(** * The decision procedure of [process_file] *)
(* ================================================================== *)

Module DecisionFacts.
Import MongoSink KnowledgeBaseManager RunFacts SinkFacts.

Lemma file_info_filename (d : database) (c : string) (fn : value)
    (old : dict) :
  file_info d c fn = Some old ->
  value_eqb (py_get old "filename") fn = true.
Proof.
  unfold file_info. intros H.
  destruct (find _ _) as [doc|] eqn:E; [|discriminate].
  injection H as <-. apply find_some in E. destruct E as [_ E].
  now rewrite matches_filename in E.
Qed.

Lemma file_info_not_empty (d : database) (c : string) (fn : value)
    (old : dict) :
  truthy fn = true -> file_info d c fn = Some old -> old <> [].
Proof.
  intros Ht H ->. apply file_info_filename in H.
  apply value_eqb_eq in H. cbn in H. subst fn. discriminate.
Qed.

Lemma metadata_changed_spec (old new : dict) :
  _metadata_changed old new
  = existsb
      (fun kv =>
         negb (fst kv =? "file_hash")%string
         && py_ne (py_get old (fst kv)) (snd kv))
      new.
Proof.
  unfold _metadata_changed. induction new as [|kv r IH]; [reflexivity|].
  cbn [existsb]. rewrite IH.
  now destruct (fst kv =? "file_hash")%string.
Qed.

Lemma file_hash_of_not_empty (fs : string -> file_state) (path h : string) :
  file_hash_of fs path = Some h -> h <> "".
Proof.
  unfold file_hash_of. destruct (fs path); intros H; try discriminate;
    injection H as <-; apply hexdigest_not_empty.
Qed.

Lemma falsy_differs (v : value) (h : string) :
  h <> "" -> truthy v = false -> py_ne v (VStr h) = true.
Proof.
  intros Hh Hv. unfold py_ne. destruct v as [|b|z|s]; try reflexivity.
  cbn in *. destruct (String.eqb_spec s ""); [subst|discriminate].
  destruct (String.eqb_spec "" h); [congruence | reflexivity].
Qed.

Ltac enter Ht Hh Hd :=
  unfold process_file; rewrite Ht; cbn [negb];
  rewrite (bind_ok _ _ _ _ _ (calc_hash_run _ _ _ Hh)); cbv beta;
  match goal with
  | |- context [bind (get_file_info ?c ?fn) _ ?w2] =>
      match type of Hd with
      | _ = Some ?d =>
          rewrite (bind_ok _ _ _ _ _ (get_file_info_run c fn w2 d Hd))
      end
  end; cbv beta; cbn [files sink_db kb_log history].

Ltac leaf_update Hfn :=
  unfold bind at 1, logger at 1;
  cbn [files sink_db kb_log history];
  erewrite handle_content_update_run; [|reflexivity | exact Hfn];
  cbn [files sink_db kb_log history action fold_left apply_call];
  eexists; rewrite <- !app_assoc; reflexivity.

Lemma process_file_run (self : t) (path : string) (metadata : dict)
    (w : world) (d : database) (h : string) :
  sink_db w = Some d ->
  truthy (py_get metadata "filename") = true ->
  file_hash_of (files w) path = Some h ->
  let c := collection_name self in
  let fn := py_get metadata "filename" in
  let calls := action self path metadata h
                 (classify (file_info d c fn) h metadata) in
  exists lg,
    process_file self path metadata w
    = (Ok tt,
       mkWorld (Some (fold_left apply_call calls d)) (files w)
               (kb_log w ++ lg)
               (history w ++ hash_probes (files w) path
                ++ [SinkGetFileInfo c fn] ++ calls)).
Proof.
  intros Hd Ht Hh c fn calls.
  pose proof (truthy_get metadata Ht) as Hfn.
  pose proof (file_hash_of_not_empty _ _ _ Hh) as Hne.
  enter Ht Hh Hd. subst calls. fold fn. fold c.
  destruct (file_info d c fn) as [old|] eqn:Hinfo.
  - pose proof (file_info_not_empty _ _ _ _ Ht Hinfo) as Hold.
    destruct old as [|kv old']; [contradiction|].
    remember (kv :: old') as old eqn:Eold. clear Eold Hold.
    unfold classify. rewrite <- metadata_changed_spec.
    assert (Hget : forall sh, dict_get old "file_hash" = Some sh ->
                              py_get old "file_hash" = sh)
      by (intros sh E; unfold py_get; now rewrite E).
    destruct (dict_get old "file_hash") as [sh|] eqn:Hsh.
    + rewrite (Hget sh eq_refl).
      destruct (truthy sh) eqn:Hts; cbn [negb].
      * destruct (py_ne sh (VStr h)) eqn:Hpn.
        -- leaf_update Hfn.
        -- destruct (_metadata_changed old metadata) eqn:Hmc.
           ++ unfold bind at 1, logger at 1.
              cbn [files sink_db kb_log history].
              unfold _handle_metadata_update.
              unfold bind at 1, logger at 1.
              cbn [files sink_db kb_log history].
              erewrite handle_new_file_run; [|reflexivity | exact Hfn].
              cbn [files sink_db kb_log history action fold_left apply_call].
              eexists. rewrite <- !app_assoc. reflexivity.
           ++ unfold logger. cbn [files sink_db kb_log history action
                                  fold_left apply_call].
              eexists. rewrite <- !app_assoc. reflexivity.
      * rewrite (falsy_differs sh h Hne Hts). leaf_update Hfn.
    + unfold py_get. rewrite Hsh. cbn [truthy negb]. leaf_update Hfn.
  - unfold bind at 1, logger at 1. cbn [files sink_db kb_log history].
    erewrite handle_new_file_run; [|reflexivity | exact Hfn].
    cbn [files sink_db kb_log history classify action fold_left apply_call].
    eexists. rewrite <- !app_assoc. reflexivity.
Qed.

(** Supplied fields that all have their stored value are no change,
    whatever else is stored. *)
Lemma same_fields_not_changed (old metadata : dict) :
  (forall k v, In (k, v) metadata -> k <> "file_hash" ->
               dict_get old k = Some v) ->
  _metadata_changed old metadata = false.
Proof.
  intros Hsame. unfold _metadata_changed.
  destruct (existsb _ metadata) eqn:E; [|reflexivity].
  apply existsb_exists in E. destruct E as [[k v] [Hin Hk]].
  cbn [fst snd] in Hk.
  destruct (String.eqb_spec k "file_hash") as [|Hne]; [discriminate|].
  unfold py_get, py_ne in Hk. rewrite (Hsame k v Hin Hne) in Hk.
  now rewrite py_eq_refl in Hk.
Qed.

(** The hypotheses of "nothing changed" put the call in the last row of
    the table. *)
Lemma classify_unchanged (old metadata : dict) (h : string) :
  dict_get old "file_hash" = Some (VStr h) ->
  (forall k v, In (k, v) metadata -> k <> "file_hash" ->
               dict_get old k = Some v) ->
  classify (Some old) h metadata = UNCHANGED.
Proof.
  intros Hh Hsame.
  unfold classify. rewrite Hh.
  assert (E : py_ne (VStr h) (VStr h) = false)
    by now apply py_ne_VStr_r.
  rewrite E, <- metadata_changed_spec.
  now rewrite (same_fields_not_changed old metadata Hsame).
Qed.

End DecisionFacts.

(* ================================================================== *)
(** * Properties of the reconciliation engine *)
(* ================================================================== *)

Import DecisionFacts.

(** C6.  A call whose metadata has no [filename] entry raises the
    [ValueError] and leaves the whole state as it was: no file-system
    probe, no sink call, no log record, the same database. *)
Theorem process_file_requires_filename (self : KnowledgeBaseManager.t)
    (file_path : string) (metadata : dict) (w : world)
    (Hmissing : dict_get metadata "filename" = None) :
  KnowledgeBaseManager.process_file self file_path metadata w
  = (Raise (ValueError "Metadata must contain 'filename'"), w).
Proof.
  unfold KnowledgeBaseManager.process_file, py_get. rewrite Hmissing.
  reflexivity.
Qed.

Lemma process_file_requires_filename_witness :
  dict_get [("label", VStr "draft")] "filename" = None
  /\ KnowledgeBaseManager.process_file Scenario.kb "path/to/doc1.pdf"
       [("label", VStr "draft")] Scenario.world_ingested
     = (Raise (ValueError "Metadata must contain 'filename'"),
        Scenario.world_ingested).
Proof.
  split; [reflexivity|].
  apply (process_file_requires_filename Scenario.kb "path/to/doc1.pdf"
           [("label", VStr "draft")] Scenario.world_ingested).
  reflexivity.
Defined.

(** C7.  When the stored hash is the current one and every supplied field
    other than [file_hash] has its stored value, the call only looks: the
    history grows by the fingerprint probes and the one [get_file_info],
    with no [delete_chunks], [ingest_chunks] or [update_chunk_metadata],
    and the database is the one it started from. *)
Theorem process_file_unchanged_is_noop (self : KnowledgeBaseManager.t)
    (file_path : string) (metadata old : dict) (w : world) (d : database)
    (h : string)
    (Hconnected : sink_db w = Some d)
    (Hfilename : truthy (py_get metadata "filename") = true)
    (Hhash : file_hash_of (files w) file_path = Some h)
    (Hstored :
       file_info d (KnowledgeBaseManager.collection_name self)
                 (py_get metadata "filename") = Some old)
    (Hsame_hash : dict_get old "file_hash" = Some (VStr h))
    (Hsame_fields :
       forall k v, In (k, v) metadata -> k <> "file_hash" ->
                   dict_get old k = Some v) :
  exists w',
    KnowledgeBaseManager.process_file self file_path metadata w = (Ok tt, w')
    /\ sink_db w' = Some d
    /\ history w'
       = history w ++ hash_probes (files w) file_path
         ++ [SinkGetFileInfo (KnowledgeBaseManager.collection_name self)
               (py_get metadata "filename")]
    /\ stored w' (KnowledgeBaseManager.collection_name self)
       = stored w (KnowledgeBaseManager.collection_name self).
Proof.
  destruct (process_file_run self file_path metadata w d h
              Hconnected Hfilename Hhash) as [lg Hrun].
  cbv zeta in Hrun. rewrite Hstored in Hrun.
  rewrite (classify_unchanged old metadata h Hsame_hash Hsame_fields) in Hrun.
  cbn [action fold_left] in Hrun.
  eexists. split; [exact Hrun|].
  cbn [sink_db history]. unfold stored. cbn [sink_db]. rewrite Hconnected.
  now rewrite app_nil_r.
Qed.

Lemma process_file_unchanged_is_noop_witness :
  exists w',
    KnowledgeBaseManager.process_file Scenario.kb "path/to/doc1.pdf"
      Scenario.meta_draft Scenario.world_ingested = (Ok tt, w')
    /\ sink_db w' = Some Scenario.db_ingested
    /\ history w'
       = history Scenario.world_ingested
         ++ [OsPathExists "path/to/doc1.pdf";
             SinkGetFileInfo "kb_test" (VStr "doc1.pdf")]
    /\ List.length (stored w' "kb_test") = 2%nat.
Proof.
  destruct (process_file_unchanged_is_noop Scenario.kb "path/to/doc1.pdf"
              Scenario.meta_draft Scenario.stored_draft
              Scenario.world_ingested Scenario.db_ingested Scenario.hash_doc1)
    as (w' & Hrun & Hdb & Hhist & Hstored).
  - vm_compute. reflexivity.
  - reflexivity.
  - vm_compute. reflexivity.
  - vm_compute. reflexivity.
  - reflexivity.
  - intros k v [E|[E|[E|[]]]] _; injection E as <- <-; reflexivity.
  - exists w'. split; [exact Hrun|]. split; [exact Hdb|]. split.
    + rewrite Hhist. vm_compute. reflexivity.
    + change (KnowledgeBaseManager.collection_name Scenario.kb)
        with "kb_test" in Hstored.
      rewrite Hstored. vm_compute. reflexivity.
Defined.

(** C10.  Change detection walks the supplied metadata only.  If each
    supplied field other than [file_hash] has its stored value, nothing is
    reported as changed, whatever other fields are stored, and the call is
    never put in the METADATA_CHANGED row.  So when the comparison is
    reached (the hashes are equal) and the stored record has a field [k0]
    the caller no longer sends, the call is in the UNCHANGED row, the
    database is kept, and [get_file_info] still answers with [k0]. *)
Theorem removed_field_is_not_a_change (old metadata : dict)
    (Hsame_fields :
       forall k v, In (k, v) metadata -> k <> "file_hash" ->
                   dict_get old k = Some v) :
  KnowledgeBaseManager._metadata_changed old metadata = false
  /\ (forall h, classify (Some old) h metadata <> METADATA_CHANGED)
  /\ (forall (self : KnowledgeBaseManager.t) (file_path : string)
             (w : world) (d : database) (h k0 : string) (v0 : value),
         sink_db w = Some d ->
         truthy (py_get metadata "filename") = true ->
         file_hash_of (files w) file_path = Some h ->
         file_info d (KnowledgeBaseManager.collection_name self)
                   (py_get metadata "filename") = Some old ->
         dict_get old "file_hash" = Some (VStr h) ->
         dict_get metadata k0 = None ->
         dict_get old k0 = Some v0 ->
         classify (Some old) h metadata = UNCHANGED
         /\ exists w',
              KnowledgeBaseManager.process_file self file_path metadata w
              = (Ok tt, w')
              /\ sink_db w' = Some d
              /\ exists m w'',
                   MongoSink.get_file_info
                     (KnowledgeBaseManager.collection_name self)
                     (py_get metadata "filename") w' = (Ok (Some m), w'')
                   /\ dict_get m k0 = Some v0).
Proof.
  pose proof (same_fields_not_changed old metadata Hsame_fields) as Hmc.
  split; [exact Hmc|]. split.
  - intros h. unfold classify.
    destruct (dict_get old "file_hash") as [sh|]; [|discriminate].
    destruct (py_ne sh (VStr h)); [discriminate|].
    rewrite <- metadata_changed_spec, Hmc. discriminate.
  - intros self file_path w d h k0 v0
           Hconnected Hfilename Hhash Hstored Hsame_hash Hremoved Hstale.
    pose proof (classify_unchanged old metadata h Hsame_hash Hsame_fields)
      as Hclass.
    split; [exact Hclass|].
    destruct (process_file_run self file_path metadata w d h
                Hconnected Hfilename Hhash) as [lg Hrun].
    cbv zeta in Hrun. rewrite Hstored, Hclass in Hrun.
    cbn [action fold_left] in Hrun.
    eexists. split; [exact Hrun|]. split; [reflexivity|].
    exists old. eexists. split; [|exact Hstale].
    erewrite RunFacts.get_file_info_run by reflexivity.
    now rewrite Hstored.
Qed.

Lemma removed_field_is_not_a_change_witness :
  dict_get Scenario.meta_no_provider "provider" = None
  /\ KnowledgeBaseManager._metadata_changed Scenario.stored_draft
       Scenario.meta_no_provider = false
  /\ exists w',
       KnowledgeBaseManager.process_file Scenario.kb "path/to/doc1.pdf"
         Scenario.meta_no_provider Scenario.world_ingested = (Ok tt, w')
       /\ exists m w'',
            MongoSink.get_file_info "kb_test" (VStr "doc1.pdf") w'
            = (Ok (Some m), w'')
            /\ dict_get m "provider" = Some (VStr "A").
Proof.
  split; [reflexivity|].
  destruct (removed_field_is_not_a_change Scenario.stored_draft
              Scenario.meta_no_provider)
    as (Hmc & _ & Hcall).
  - intros k v [E|[E|[]]] _; injection E as <- <-; reflexivity.
  - split; [exact Hmc|].
    destruct (Hcall Scenario.kb "path/to/doc1.pdf" Scenario.world_ingested
                Scenario.db_ingested Scenario.hash_doc1 "provider" (VStr "A"))
      as (_ & w' & Hrun & _ & Hinfo).
    + vm_compute. reflexivity.
    + reflexivity.
    + vm_compute. reflexivity.
    + vm_compute. reflexivity.
    + reflexivity.
    + reflexivity.
    + reflexivity.
    + exists w'. split; [exact Hrun | exact Hinfo].
Defined.






(* ================================================================== *)
(** * The content fingerprint *)
(* ================================================================== *)

(** C8, as the code has it.  The fingerprint is the MD5 of the bytes of a
    file that opens and the MD5 of the path string when nothing exists at
    the path; a path that exists and does not open raises.  In every case
    the manager's log and the sink are left as they were: the fallback
    writes no record. *)
Theorem calculate_file_hash_cases (file_path : string) (w : world) :
  KnowledgeBaseManager._calculate_file_hash file_path w
  = (match files w file_path with
     | Missing => Ok (MD5.hexdigest file_path)
     | Unreadable => Raise (OSError file_path)
     | Readable content => Ok (MD5.hexdigest content)
     end,
     mkWorld (sink_db w) (files w) (kb_log w)
             (history w ++ hash_probes (files w) file_path)).
Proof.
  destruct (files w file_path) as [| |content] eqn:E.
  - rewrite (RunFacts.calc_hash_run file_path w (MD5.hexdigest file_path)).
    + reflexivity.
    + unfold file_hash_of. now rewrite E.
  - rewrite (RunFacts.calc_hash_unreadable file_path w E).
    unfold hash_probes. now rewrite E.
  - rewrite (RunFacts.calc_hash_run file_path w (MD5.hexdigest content)).
    + reflexivity.
    + unfold file_hash_of. now rewrite E.
Qed.

(** C8, where the wording fails: the fallback for a missing [notes.txt]
    returns what a readable [notes.txt] holding the bytes of its own name
    returns, with no log record either time; and a [notes.txt] that
    exists but does not open gives an error, not the fallback. *)
Lemma silent_fallback_counterexample :
  fst (KnowledgeBaseManager._calculate_file_hash "notes.txt" fresh_world)
  = fst (KnowledgeBaseManager._calculate_file_hash "notes.txt"
           Scenario.world_with_file)
  /\ kb_log (snd (KnowledgeBaseManager._calculate_file_hash "notes.txt"
                    fresh_world)) = []
  /\ kb_log (snd (KnowledgeBaseManager._calculate_file_hash "notes.txt"
                    Scenario.world_with_file)) = []
  /\ fst (KnowledgeBaseManager._calculate_file_hash "notes.txt"
            Scenario.world_locked_file)
     = Raise (OSError "notes.txt").
Proof.
  split; [|split; [|split]]; vm_compute; reflexivity.
Qed.

(* ================================================================== *)
(** * Chunk ids across files *)
(* ================================================================== *)




(* ================================================================== *)
(** * The metadata-only path *)
(* ================================================================== *)

(** C1, on the code.  [doc1.pdf] is ingested from [path/to/doc1_v2.pdf]
    and reconciled again from the same path with [label] changed.  The
    call is in the METADATA_CHANGED row, and the update is run on the path
    ["mock_path/doc1.pdf"]: two chunks with new ids are added, the two
    original ones stay with the old label, and [get_file_info] still
    answers ["draft"]. *)
Theorem metadata_update_leaves_orphans :
  classify
    (file_info (database_of Scenario.world_v2_draft) "kb_test"
               (VStr "doc1.pdf"))
    Scenario.hash_doc1_v2 Scenario.meta_final = METADATA_CHANGED
  /\ map (fun c => (Chunk.id c, Chunk.text c))
         (stored Scenario.world_v2_draft "kb_test")
     = [("1024f4dca3213f112eb81a087213a6ba", "Content of doc1_v2.pdf chunk 1");
        ("fdd8ca714d27cc278c8640444df78e79", "Content of doc1_v2.pdf chunk 2")]
  /\ map (fun c => (Chunk.id c, Chunk.text c, py_get (Chunk.metadata c) "label"))
         (stored Scenario.world_v2_final "kb_test")
     = [("1024f4dca3213f112eb81a087213a6ba", "Content of doc1_v2.pdf chunk 1",
         VStr "draft");
        ("fdd8ca714d27cc278c8640444df78e79", "Content of doc1_v2.pdf chunk 2",
         VStr "draft");
        ("dfe7e18fe5c5be960f54785af70c4619", "Content of doc1.pdf chunk 1",
         VStr "final");
        ("819f2fcc728682ad69f3940313c18875", "Content of doc1.pdf chunk 2",
         VStr "final")]
  /\ option_map (fun m => py_get m "label")
       (file_info (database_of Scenario.world_v2_final) "kb_test"
                  (VStr "doc1.pdf"))
     = Some (VStr "draft").
Proof.
  split; [|split; [|split]]; vm_compute; reflexivity.
Qed.

(** What the metadata-only path relies on: writing chunks whose ids are
    all stored already adds no id and removes none. *)
Lemma ingest_known_ids_keeps_id_set (d : database) (c : string)
    (chunks : list Chunk.t) :
  (forall i, In i (ids_of chunks) ->
             In i (ids_of (MongoSink.get_collection d c))) ->
  forall i,
    In i (ids_of (MongoSink.get_collection (MongoSink.ingest_many d c chunks) c))
    <-> In i (ids_of (MongoSink.get_collection d c)).
Proof.
  intros Hknown i. rewrite SinkFacts.get_ingest_many, SinkFacts.upserts_ids.
  split; [intros [H|H]; [exact H | exact (Hknown i H)] | now left].
Qed.

(* ================================================================== *)
(** * Further facts about the sink *)
(* ================================================================== *)

Module UpsertFacts.
Import MongoSink SinkFacts.












Lemma has_collection_of_docs (d : database) (name : string) :
  get_collection d name <> [] -> has_collection d name = true.
Proof.
  intros H. destruct (has_collection d name) eqn:E; [reflexivity|].
  now rewrite (get_absent d name E) in H.
Qed.




End UpsertFacts.

(** X1.  The slicing loop of [ingest_chunks]: the batches, put end to end,
    are the list; none is empty and none is longer than the batch size. *)
Theorem batches_cover {A} (n : nat) (l : list A) (Hn : (0 < n)%nat) :
  List.concat (batches n l) = l
  /\ Forall (fun b => (1 <= List.length b <= n)%nat) (batches n l).
Proof.
  split; [now apply concat_batches|].
  apply Forall_forall. intros b Hb. unfold batches in Hb.
  apply in_map_iff in Hb. destruct Hb as [k [<- Hk]].
  apply in_seq in Hk. rewrite length_firstn, length_skipn.
  pose proof (Nat.div_mod_eq (List.length l + n - 1) n) as E.
  pose proof (Nat.mod_upper_bound (List.length l + n - 1) n) as U.
  assert (Hlt : (k * n < List.length l)%nat) by nia.
  lia.
Qed.

Lemma batches_cover_witness :
  List.concat (batches 2 [1; 2; 3; 4; 5]) = [1; 2; 3; 4; 5]
  /\ Forall (fun b => (1 <= List.length b <= 2)%nat)
            (batches 2 [1; 2; 3; 4; 5]).
Proof. apply (batches_cover 2 [1; 2; 3; 4; 5]). lia. Defined.

Lemma ingest_chunks_run (c : string) (chunks : list Chunk.t) (w : world)
    (d : database) :
  sink_db w = Some d ->
  MongoSink.ingest_chunks c chunks w
  = (Ok tt,
     mkWorld (Some (MongoSink.ingest_many d c chunks)) (files w) (kb_log w)
             (history w ++ [SinkIngestChunks c chunks])).
Proof.
  intros Hd.
  unfold MongoSink.ingest_chunks, bind, emit, MongoSink.require_db, set_db.
  cbn [files sink_db kb_log history]. now rewrite Hd.
Qed.














(** X6.  Before [connect] every method of the sink raises the
    [ConnectionError] and leaves the sink without a database.  The manager
    passes the error on: [delete_file] has logged its line by then, and
    [process_file] has computed the fingerprint and made the one
    [get_file_info] call, with nothing logged. *)
Theorem sink_requires_connection (w : world) (Hnone : sink_db w = None) :
  (forall c chunks, refused w (MongoSink.ingest_chunks c chunks w))
  /\ (forall c filters, refused w (MongoSink.delete_chunks c filters w))
  /\ (forall c i m, refused w (MongoSink.update_chunk_metadata c i m w))
  /\ (forall c i, refused w (MongoSink.get_chunk c i w))
  /\ (forall c fn, refused w (MongoSink.get_file_info c fn w))
  /\ (forall self fn,
         let r := KnowledgeBaseManager.delete_file self fn w in
         fst r = Raise (ConnectionError "Not connected.")
         /\ sink_db (snd r) = None
         /\ kb_log (snd r) = kb_log w ++ [deleting_record fn])
  /\ (forall self file_path metadata h,
         truthy (py_get metadata "filename") = true ->
         file_hash_of (files w) file_path = Some h ->
         let r := KnowledgeBaseManager.process_file self file_path metadata w in
         refused w r
         /\ history (snd r)
            = history w ++ hash_probes (files w) file_path
              ++ [SinkGetFileInfo (KnowledgeBaseManager.collection_name self)
                    (py_get metadata "filename")]).
Proof.
  assert (Hop : forall A (m : database -> M A) (e : event),
             refused w (bind (emit e)
                          (fun _ => bind (MongoSink.require_db "Not connected.") m)
                          w)).
  { intros A m e. unfold refused, bind, emit, MongoSink.require_db.
    cbn [files sink_db kb_log history fst snd]. rewrite Hnone.
    cbn [fst snd sink_db kb_log]. auto. }
  split; [intros; apply Hop|]. split; [intros; apply Hop|].
  split; [intros; apply Hop|]. split; [intros; apply Hop|].
  split; [intros; apply Hop|]. split.
  - intros self fn.
    unfold KnowledgeBaseManager.delete_file, MongoSink.delete_chunks, bind,
      logger, emit, MongoSink.require_db.
    cbn [files sink_db kb_log history fst snd]. rewrite Hnone.
    cbn [fst snd sink_db kb_log]. auto.
  - intros self file_path metadata h Ht Hh.
    unfold KnowledgeBaseManager.process_file. rewrite Ht. cbn [negb].
    rewrite (RunFacts.bind_ok _ _ _ _ _
               (RunFacts.calc_hash_run file_path w h Hh)).
    cbv beta.
    unfold MongoSink.get_file_info, bind, emit, MongoSink.require_db, refused.
    cbn [files sink_db kb_log history fst snd]. rewrite Hnone.
    cbn [fst snd sink_db kb_log history].
    rewrite <- app_assoc. auto.
Qed.

Lemma sink_requires_connection_witness :
  refused Scenario.world_disconnected
    (MongoSink.ingest_chunks "kb_test" [] Scenario.world_disconnected)
  /\ refused Scenario.world_disconnected
       (KnowledgeBaseManager.process_file Scenario.kb "path/to/doc1.pdf"
          Scenario.meta_draft Scenario.world_disconnected).
Proof.
  destruct (sink_requires_connection Scenario.world_disconnected eq_refl)
    as (Hingest & _ & _ & _ & _ & _ & Hprocess).
  split; [apply Hingest|].
  apply (Hprocess Scenario.kb "path/to/doc1.pdf" Scenario.meta_draft
           Scenario.hash_doc1); vm_compute; reflexivity.
Defined.

(* ================================================================== *)
(** * Further facts about the manager *)
(* ================================================================== *)

Module IngestFacts.
Import MongoSink KnowledgeBaseManager SinkFacts UpsertFacts.







End IngestFacts.

Import IngestFacts.










(* ================================================================== *)
(** * The mock extractor, change detection and the private handlers *)
(* ================================================================== *)

Local Abbreviation after_slash :=
  (fix after (l acc : list ascii) {struct l} : list ascii :=
     match l with
     | [] => acc
     | c :: r => if (c =? "/")%char then after r [] else after r (acc ++ [c])
     end).

Lemma list_ascii_of_append (a b : string) :
  list_ascii_of_string (a ++ b)
  = list_ascii_of_string a ++ list_ascii_of_string b.
Proof. induction a as [|x a IH]; simpl; [reflexivity | now rewrite IH]. Qed.

Lemma after_slash_plain (l : list ascii) :
  ~ In "/"%char l -> forall acc, after_slash l acc = acc ++ l.
Proof.
  induction l as [|x l IH]; intros Hno acc.
  - now rewrite app_nil_r.
  - destruct (Ascii.eqb_spec x "/") as [E|E].
    + exfalso. apply Hno. left. exact E.
    + rewrite IH by (intros H; apply Hno; now right).
      now rewrite <- app_assoc.
Qed.

Lemma after_slash_cut (l1 l2 : list ascii) :
  forall acc,
    after_slash (l1 ++ "/"%char :: l2) acc = after_slash l2 [].
Proof.
  induction l1 as [|x l1 IH]; intros acc; [reflexivity|].
  cbn [app]. destruct (Ascii.eqb_spec x "/") as [E|E]; apply IH.
Qed.

Lemma basename_bare (name : string) :
  no_slash name -> basename name = name.
Proof.
  intros Hno. unfold basename.
  rewrite (after_slash_plain _ Hno). cbn [app].
  apply string_of_list_ascii_of_string.
Qed.

Lemma basename_join (dir name : string) :
  no_slash name -> basename (dir ++ "/" ++ name) = name.
Proof.
  intros Hno. unfold basename.
  rewrite list_ascii_of_append.
  change (list_ascii_of_string ("/" ++ name))
    with ("/"%char :: list_ascii_of_string name).
  rewrite after_slash_cut, (after_slash_plain _ Hno). cbn [app].
  apply string_of_list_ascii_of_string.
Qed.

(** X11.  The mock extractor looks at the base name only: for a name
    without a slash, [dir/name], the bare [name] and ["mock_path/" + name]
    all yield the two texts built from [name], so a default manager writes
    the same ids for them under one filename. *)
Theorem mock_extract_by_basename (dir name : string) (Hname : no_slash name) :
  KnowledgeBaseManager.mock_extract_and_chunk (dir ++ "/" ++ name)
  = [("Content of " ++ name ++ " chunk 1")%string;
     ("Content of " ++ name ++ " chunk 2")%string]
  /\ KnowledgeBaseManager.mock_extract_and_chunk name
     = KnowledgeBaseManager.mock_extract_and_chunk (dir ++ "/" ++ name)
  /\ (forall c filename,
         ids_for (KnowledgeBaseManager.new c) ("mock_path/" ++ name) filename
         = ids_for (KnowledgeBaseManager.new c) (dir ++ "/" ++ name) filename).
Proof.
  unfold KnowledgeBaseManager.mock_extract_and_chunk.
  rewrite (basename_join dir name Hname), (basename_bare name Hname).
  split; [reflexivity|]. split; [reflexivity|].
  intros c filename. unfold ids_for, KnowledgeBaseManager.new.
  cbn [KnowledgeBaseManager._mock_extract_and_chunk].
  unfold KnowledgeBaseManager.mock_extract_and_chunk.
  change ("mock_path/" ++ name)%string with ("mock_path" ++ "/" ++ name)%string.
  now rewrite (basename_join "mock_path" name Hname),
              (basename_join dir name Hname).
Qed.

Lemma mock_extract_by_basename_witness :
  KnowledgeBaseManager.mock_extract_and_chunk ("path/to" ++ "/" ++ "doc1.pdf")
  = ["Content of doc1.pdf chunk 1"; "Content of doc1.pdf chunk 2"].
Proof.
  apply (mock_extract_by_basename "path/to" "doc1.pdf").
  unfold no_slash. simpl. intuition discriminate.
Defined.

Lemma existsb_perm {A} (f : A -> bool) (l l' : list A) :
  Permutation l l' -> existsb f l = existsb f l'.
Proof.
  induction 1 as [|x l l' _ IH|x y l|l l' l'' _ IH1 _ IH2]; simpl.
  - reflexivity.
  - now rewrite IH.
  - destruct (f x), (f y); reflexivity.
  - now rewrite IH1.
Qed.

Lemma existsb_pointwise {A} (f g : A -> bool) (l : list A) :
  (forall a, f a = g a) -> existsb f l = existsb g l.
Proof.
  intros H. induction l as [|x l IH]; simpl; [reflexivity|].
  now rewrite H, IH.
Qed.

Lemma py_get_perm (old old' : dict) (k : string) :
  well_formed old -> Permutation old old' -> py_get old k = py_get old' k.
Proof.
  intros Hwf Hp.
  assert (Hwf' : well_formed old').
  { unfold well_formed in *.
    eapply Permutation_NoDup; [apply Permutation_map, Hp | exact Hwf]. }
  unfold py_get.
  destruct (dict_get old k) as [v|] eqn:E.
  - apply dict_get_In in E.
    now rewrite (In_dict_get old' k v Hwf' (Permutation_in _ Hp E)).
  - destruct (dict_get old' k) as [v'|] eqn:E'; [|reflexivity].
    apply dict_get_In in E'.
    rewrite (In_dict_get old k v' Hwf
               (Permutation_in _ (Permutation_sym Hp) E')) in E.
    discriminate.
Qed.

(** X12.  Change detection does not depend on the order of the keys of
    either dictionary, and metadata compared with its own stored copy
    (itself plus the hash) is never a change. *)
Theorem metadata_changed_order_free (old old' new new' : dict) (h : string)
    (Hold : well_formed old) (Hnew : well_formed new)
    (Hpold : Permutation old old') (Hpnew : Permutation new new') :
  KnowledgeBaseManager._metadata_changed old new
  = KnowledgeBaseManager._metadata_changed old' new'
  /\ KnowledgeBaseManager._metadata_changed
       (dict_set new "file_hash" (VStr h)) new = false.
Proof.
  split.
  - unfold KnowledgeBaseManager._metadata_changed.
    rewrite (existsb_perm _ new new' Hpnew).
    apply existsb_pointwise. intros kv.
    now rewrite (py_get_perm old old' (fst kv) Hold Hpold).
  - apply same_fields_not_changed. intros k v Hin Hne.
    rewrite dict_get_set_other by (intros E; apply Hne; now symmetry).
    now apply In_dict_get.
Qed.

Lemma metadata_changed_order_free_witness :
  KnowledgeBaseManager._metadata_changed Scenario.stored_draft
    Scenario.meta_final
  = KnowledgeBaseManager._metadata_changed
      [("file_hash", VStr Scenario.hash_doc1); ("provider", VStr "A");
       ("label", VStr "draft"); ("filename", VStr "doc1.pdf")]
      [("label", VStr "final"); ("filename", VStr "doc1.pdf");
       ("provider", VStr "A")].
Proof.
  apply (metadata_changed_order_free Scenario.stored_draft _
           Scenario.meta_final _ Scenario.hash_doc1).
  - unfold well_formed. simpl.
    repeat constructor; simpl; intuition discriminate.
  - unfold well_formed. simpl.
    repeat constructor; simpl; intuition discriminate.
  - exact (Permutation_rev Scenario.stored_draft).
  - unfold Scenario.meta_final. apply perm_swap.
Defined.

(** X13.  The private handlers read [metadata["filename"]] themselves.
    Without that key [_handle_content_update] raises [KeyError] before it
    deletes anything, and [_handle_new_file] raises it before it ingests
    anything as soon as one chunk was extracted; with nothing extracted
    [_handle_new_file] calls [ingest_chunks] with no chunk, which leaves
    the database as it is. *)
Theorem handlers_need_filename (self : KnowledgeBaseManager.t)
    (file_path : string) (metadata : dict) (file_hash : string) (w : world)
    (Hmissing : dict_get metadata "filename" = None) :
  KnowledgeBaseManager._handle_content_update self file_path metadata
    file_hash w = (Raise (KeyError "filename"), w)
  /\ (KnowledgeBaseManager._mock_extract_and_chunk self file_path <> [] ->
      KnowledgeBaseManager._handle_new_file self file_path metadata
        file_hash w = (Raise (KeyError "filename"), w))
  /\ (KnowledgeBaseManager._mock_extract_and_chunk self file_path = [] ->
      forall d, sink_db w = Some d ->
        KnowledgeBaseManager._handle_new_file self file_path metadata
          file_hash w
        = (Ok tt,
           mkWorld (Some d) (files w) (kb_log w)
                   (history w
                    ++ [SinkIngestChunks
                          (KnowledgeBaseManager.collection_name self) []]))).
Proof.
  split; [|split].
  - unfold KnowledgeBaseManager._handle_content_update,
      KnowledgeBaseManager.subscript, bind, raise.
    now rewrite Hmissing.
  - intros Hne. unfold KnowledgeBaseManager._handle_new_file.
    destruct (KnowledgeBaseManager._mock_extract_and_chunk self file_path)
      as [|text texts]; [contradiction|].
    cbn [collect]. unfold KnowledgeBaseManager.subscript, bind, raise.
    now rewrite Hmissing.
  - intros Hnil d Hd. unfold KnowledgeBaseManager._handle_new_file.
    rewrite Hnil. cbn [collect]. unfold bind at 1. unfold ret at 1.
    now rewrite (ingest_chunks_run _ [] w d Hd).
Qed.

Lemma handlers_need_filename_witness :
  KnowledgeBaseManager._handle_content_update Scenario.kb "path/to/doc1.pdf"
    [("label", VStr "draft")] Scenario.hash_doc1 Scenario.world_ingested
  = (Raise (KeyError "filename"), Scenario.world_ingested).
Proof.
  destruct (handlers_need_filename Scenario.kb "path/to/doc1.pdf"
              [("label", VStr "draft")] Scenario.hash_doc1
              Scenario.world_ingested eq_refl) as [Hraise _].
  exact Hraise.
Defined.



(** X15.  A path that exists and cannot be opened stops the call while
    the fingerprint is computed: the [OSError] is passed on, the sink has
    not been called, nothing is logged and the database is untouched. *)
Theorem process_file_unreadable (self : KnowledgeBaseManager.t)
    (file_path : string) (metadata : dict) (w : world)
    (Hfilename : truthy (py_get metadata "filename") = true)
    (Hlocked : files w file_path = Unreadable) :
  KnowledgeBaseManager.process_file self file_path metadata w
  = (Raise (OSError file_path),
     mkWorld (sink_db w) (files w) (kb_log w)
             (history w ++ [OsPathExists file_path; OpenRead file_path])).
Proof.
  unfold KnowledgeBaseManager.process_file. rewrite Hfilename. cbn [negb].
  now rewrite (RunFacts.bind_raise _ _ _ _ _
                 (RunFacts.calc_hash_unreadable file_path w Hlocked)).
Qed.

Lemma process_file_unreadable_witness :
  KnowledgeBaseManager.process_file Scenario.kb "notes.txt"
    Scenario.meta_draft Scenario.world_locked_file
  = (Raise (OSError "notes.txt"),
     mkWorld (Some []) (files Scenario.world_locked_file) []
             [OsPathExists "notes.txt"; OpenRead "notes.txt"]).
Proof.
  apply (process_file_unreadable Scenario.kb "notes.txt" Scenario.meta_draft
           Scenario.world_locked_file); reflexivity.
Defined.


